(** * xl: from spreadsheet columns to maps, matrices, CSV and statistics

    A shallow embedding of [main.go] of the [xl] tool and the properties of
    its shape builder, its transposer and its error paths.

    The spreadsheet backend (excelize), the flag parser and the JSON, Go
    literal and CSV encoders are libraries outside the repository.  A
    workbook is the ordered list of its sheets, each an ordered list of
    columns of cell texts; an encoder call is recorded as one item written
    to the buffered primary output, carrying the value it was given.  The
    run is followed from the opened workbook on: opening the input and the
    output and reading the document come before, and the column iterator
    and the encoders are taken not to fail. *)

From Stdlib Require Import ZArith Lia Ascii String List.
From stdpp Require Import base option list gmap strings.

Import ListNotations.
Set Default Proof Using "Type".
Local Open Scope string_scope.
Local Open Scope Z_scope.
Local Open Scope list_scope.

(** ** Machine integers

    The counters of [main] are Go [int]s, 64 bits wide on the platforms the
    tool is built for; [x++] wraps around.  Lengths returned by [len] are
    exact. *)

Definition wrap (z : Z) : Z := (z + 2 ^ 63) mod 2 ^ 64 - 2 ^ 63.

Definition incr (z : Z) : Z := wrap (z + 1).

Definition len {A : Type} (l : list A) : Z := Z.of_nat (length l).

(** ** Modes and flags *)

Inductive Mode : Type := Map | MultiSheet | Matrix | Stats.

#[global] Instance Mode_eq_dec : EqDecision Mode.
Proof. solve_decision. Defined.

Record Flags : Type := mkFlags {
  allSheets : bool;      (* -all *)
  useSheet : string;     (* -sheet *)
  noColNames : bool;     (* -notitles *)
  stripColNames : bool;  (* -striptitles *)
  tableMode : bool;      (* -table *)
  statsMode : bool;      (* -stats *)
  asJson : bool;         (* -json *)
  asGo : bool;           (* -go *)
  asCSV : bool;          (* -csv *)
  inPath : string;       (* -i *)
  outPath : string       (* -o *)
}.

(** The flag defaults of the [var] block. *)
Definition defaultFlags : Flags :=
  mkFlags false EmptyString false false false false false false false EmptyString EmptyString.

(** Lines 44 and 53-61 of [main]: three assignments in sequence, a later
    one overriding an earlier one. *)
Definition selectMode (fl : Flags) : Mode :=
  let mode := Map in
  let mode := if tableMode fl || stripColNames fl || asCSV fl then Matrix else mode in
  let mode := if statsMode fl then Stats else mode in
  let mode := if negb (asJson fl) && negb (asGo fl) && negb (asCSV fl) then Stats else mode in
  mode.

(** ** Workbooks *)

Abbreviation Column := (list string) (only parsing).

Definition File : Type := list (string * list Column).

Definition GetSheetList (xf : File) : list string := map fst xf.

(** [xf.Cols(sheet)]: the columns of the sheet of that name, an error when
    there is none. *)
Definition Cols (xf : File) (sheet : string) : option (list Column) :=
  snd <$> List.find (fun p => bool_decide (fst p = sheet)) xf.

(** ** What a run writes *)

(** Lines of the diagnostic stream ([os.Stderr]). *)
Inductive Diag : Type :=
| InfoLine (sheets cols elements nrows : Z)
| ErrCols (sheet : string)
| NoTitleOrValues (coln : Z) (sheet : string)
| SheetNotFound (name : string)
| RuntimePanic.

(** Items written to the buffered primary output ([out]). *)
Inductive Output : Type :=
| ColumnName (rowCell : string) (coln : Z) (rows : Z)
| JsonMat (m : gmap string (list Column))
| JsonTab (m : gmap string (gmap string (list string)))
| GoMat (m : gmap string (list Column))
| GoTab (m : gmap string (gmap string (list string)))
| CsvRecords (tab : list (list string)).

(** The end of a run: exit status, the diagnostic stream, the items handed
    to the buffered writer, and whether the deferred [out.Flush()] ran
    ([os.Exit] skips deferred calls, so after a fatal error at most an
    automatically flushed prefix of [written] reaches the sink). *)
Record Outcome : Type := mkOutcome {
  status : Z;
  diagnostics : list Diag;
  written : list Output;
  flushed : bool
}.

(** ** The state of [main] *)

Record State : Type := mkState {
  bookTab : gmap string (gmap string (list string));
  bookMat : gmap string (list Column);
  nSheets : Z;
  nRows : Z;
  nCols : Z;
  sheetFound : bool;
  rowSize : Z;
  out : list Output;
  err : list Diag
}.

Definition init : State := mkState ∅ ∅ 0 0 0 false 0 [] [].

Definition set_bookTab (v : gmap string (gmap string (list string))) (s : State) : State :=
  mkState v (bookMat s) (nSheets s) (nRows s) (nCols s) (sheetFound s) (rowSize s) (out s) (err s).
Definition set_bookMat (v : gmap string (list Column)) (s : State) : State :=
  mkState (bookTab s) v (nSheets s) (nRows s) (nCols s) (sheetFound s) (rowSize s) (out s) (err s).
Definition set_nSheets (v : Z) (s : State) : State :=
  mkState (bookTab s) (bookMat s) v (nRows s) (nCols s) (sheetFound s) (rowSize s) (out s) (err s).
Definition set_nRows (v : Z) (s : State) : State :=
  mkState (bookTab s) (bookMat s) (nSheets s) v (nCols s) (sheetFound s) (rowSize s) (out s) (err s).
Definition set_nCols (v : Z) (s : State) : State :=
  mkState (bookTab s) (bookMat s) (nSheets s) (nRows s) v (sheetFound s) (rowSize s) (out s) (err s).
Definition set_sheetFound (v : bool) (s : State) : State :=
  mkState (bookTab s) (bookMat s) (nSheets s) (nRows s) (nCols s) v (rowSize s) (out s) (err s).
Definition set_rowSize (v : Z) (s : State) : State :=
  mkState (bookTab s) (bookMat s) (nSheets s) (nRows s) (nCols s) (sheetFound s) v (out s) (err s).
Definition set_out (v : list Output) (s : State) : State :=
  mkState (bookTab s) (bookMat s) (nSheets s) (nRows s) (nCols s) (sheetFound s) (rowSize s) v (err s).
Definition set_err (v : list Diag) (s : State) : State :=
  mkState (bookTab s) (bookMat s) (nSheets s) (nRows s) (nCols s) (sheetFound s) (rowSize s) (out s) v.

(** ** A state and exit monad *)

Inductive Step (A : Type) : Type :=
| Next (a : A) (s : State)
| Exit (o : Outcome).
Arguments Next {A} a s.
Arguments Exit {A} o.

Definition M (A : Type) : Type := State -> Step A.

#[global] Instance M_ret : MRet M := fun A a s => Next a s.
#[global] Instance M_bind : MBind M := fun A B f m s =>
  match m s with
  | Next a s' => f a s'
  | Exit o => Exit o
  end.

Definition get : M State := fun s => Next s s.
Definition modify (f : State -> State) : M unit := fun s => Next tt (f s).
Definition skip : M unit := mret tt.

(** [fmt.Fprintln(out, ...)] and the encoders: one more item in the buffer. *)
Definition write (o : Output) : M unit := modify (fun s => set_out (out s ++ [o]) s).

(** [fmt.Fprintln(os.Stderr, ...)]. *)
Definition eprintln (d : Diag) : M unit := modify (fun s => set_err (err s ++ [d]) s).

(** [fatal]: the line on the diagnostic stream, then [os.Exit(1)]. *)
Definition fatal {A : Type} (d : Diag) : M A := fun s =>
  Exit (mkOutcome 1 (err s ++ [d]) (out s) false).

(** A Go run-time panic (index out of range, write to a nil map): the
    deferred calls run, the trace goes to the diagnostic stream and the
    exit status is 2. *)
Definition panic {A : Type} : M A := fun s =>
  Exit (mkOutcome 2 (err s ++ [RuntimePanic]) (out s) true).

(** [for i, x := range l]. *)
Fixpoint range {A : Type} (i : nat) (l : list A) (body : nat -> A -> M unit) : M unit :=
  match l with
  | [] => skip
  | x :: l' => body i x ;; range (S i) l' body
  end.

(** ** The CSV transposition (lines 181-203) *)

(** Lines 184-189: the length of the longest column. *)
Definition maxRows (records : list Column) : nat :=
  foldl (fun nRows col => if (nRows <? length col)%nat then length col else nRows)
        0%nat records.

(** Lines 191-194: [nRows] rows of [nCols] empty strings. *)
Definition makeTab (nRows nCols : nat) : list (list string) :=
  replicate nRows (replicate nCols EmptyString).

(** [tab[ri][ci] = v]; an index out of range is a run-time panic, here [None]. *)
Definition setCell (tab : list (list string)) (ri ci : nat) (v : string)
  : option (list (list string)) :=
  match tab !! ri with
  | Some row =>
      if decide (ci < length row)%nat then Some (<[ri := <[ci := v]> row]> tab) else None
  | None => None
  end.

(** An index loop over a slice whose body may panic. *)
Fixpoint forIdx {A T : Type} (i : nat) (l : list A)
    (body : nat -> A -> T -> option T) (s : T) : option T :=
  match l with
  | [] => Some s
  | x :: l' =>
      match body i x s with
      | Some s' => forIdx (S i) l' body s'
      | None => None
      end
  end.

(** ** Vocabulary for the statements *)

Definition colsOf (xf : File) (sheet : string) : list Column :=
  default [] (Cols xf sheet).

(** The sheets the loop of lines 91-142 works on, in order: every sheet,
    or only the one named by [-sheet]; only the first of them without
    [-all]. *)
Fixpoint scope (fl : Flags) (sheets : list string) : list string :=
  match sheets with
  | [] => []
  | sheet :: sheets' =>
      if negb (bool_decide (useSheet fl = EmptyString)) && negb (bool_decide (sheet = useSheet fl))
      then scope fl sheets'
      else sheet :: (if negb (allSheets fl) then [] else scope fl sheets')
  end.

(** The columns of the sheets of a list, each with its sheet, in the order
    the column loop meets them. *)
Definition columnsOf (xf : File) (sheets : list string) : list (string * Column) :=
  flat_map (fun sheet => pair sheet <$> colsOf xf sheet) sheets.

(** The same columns without their sheets. *)
Definition colsIn (xf : File) (sheets : list string) : list Column :=
  snd <$> columnsOf xf sheets.

(** The columns a run processes. *)
Definition processed (fl : Flags) (xf : File) : list (string * Column) :=
  columnsOf xf (scope fl (GetSheetList xf)).

(** The number of cells of a list of columns. *)
Definition cellCount (cols : list Column) : nat :=
  foldr (fun col n => (length col + n)%nat) 0%nat cols.

(** The length of the last column of a list, [d] when there is none. *)
Definition lastLen (cols : list Column) (d : Z) : Z :=
  match last cols with
  | Some col => len col
  | None => d
  end.

(** One column entered in a Mapping Table: its first cell keys the cells
    after it. *)
Definition addCol (t : gmap string (list string)) (col : Column)
  : gmap string (list string) :=
  match col with
  | [] => t
  | title :: values => <[title := values]> t
  end.

(** The grid whose cell [(r, c)] is cell [r] of column [c], the empty
    string where the column is too short, and also in row 0 when
    [blank0] is set. *)
Definition gridOf (blank0 : bool) (nRows : nat) (records : list Column)
  : list (list string) :=
  (fun r =>
     (fun col : Column => if blank0 && (r =? 0)%nat then EmptyString else default EmptyString (col !! r))
       <$> records)
    <$> seq 0 nRows.

(** The position, in a list of columns with their sheets, of the first
    column without any cell, and its sheet. *)
Fixpoint firstEmpty (l : list (string * Column)) : option (nat * string) :=
  match l with
  | [] => None
  | (sheet, []) :: _ => Some (0%nat, sheet)
  | _ :: l' =>
      match firstEmpty l' with
      | Some (k, sheet) => Some (S k, sheet)
      | None => None
      end
  end.

(** The Mapping Table and the Matrix Table a mode builds from the columns
    of one sheet. *)
Definition tabOf (mode : Mode) (t : gmap string (list string)) (cols : list Column)
  : gmap string (list string) :=
  match mode with
  | Map => foldl addCol t cols
  | _ => t
  end.

Definition matOf (mode : Mode) (m : list Column) (cols : list Column) : list Column :=
  match mode with
  | Matrix => m ++ cols
  | _ => m
  end.

(** The per-sheet collections after the sheets of [sc] have been worked
    on. *)
Definition bookTabOf (mode : Mode) (xf : File) (sc : list string)
    (bt : gmap string (gmap string (list string)))
  : gmap string (gmap string (list string)) :=
  foldl (fun bt sheet => <[sheet := tabOf mode ∅ (colsOf xf sheet)]> bt) bt sc.

Definition bookMatOf (mode : Mode) (xf : File) (sc : list string)
    (bm : gmap string (list Column))
  : gmap string (list Column) :=
  foldl (fun bm sheet => <[sheet := matOf mode [] (colsOf xf sheet)]> bm) bm sc.

(** The exit of a run that stops on a column without cells. *)
Definition noTitleExit (k : nat) (sheet : string) (s : State) : Outcome :=
  mkOutcome 1
    (err s ++ [NoTitleOrValues (wrap (Nat.iter (S k) incr (nCols s) - 1)) sheet])
    (out s) false.

(** What [emit] hands to the primary output, given the two per-sheet
    collections and the first sheet of the workbook. *)
Definition emitted (fl : Flags) (mode : Mode)
    (bt : gmap string (gmap string (list string))) (bm : gmap string (list Column))
    (defaultSheet : string) : list Output :=
  if asJson fl then
    match mode with
    | Matrix => [JsonMat bm]
    | Map => [JsonTab bt]
    | _ => []
    end
  else if asGo fl then
    match mode with
    | Matrix => [GoMat bm]
    | Map => [GoTab bt]
    | _ => []
    end
  else if asCSV fl then
    let records := default [] (bm !! defaultSheet) in
    [CsvRecords (gridOf (noColNames fl) (maxRows records) records)]
  else [].

(** Cell [(r, c)] of a grid of rows. *)
Definition cellAt (tab : list (list string)) (r c : nat) : option string :=
  match tab !! r with
  | Some row => row !! c
  | None => None
  end.

(** A grid of [nRows] rows of [nCols] fields each. *)
Definition rect (nRows nCols : nat) (tab : list (list string)) : Prop :=
  length tab = nRows /\ Forall (fun row => length row = nCols) tab.

(** The line statistics mode writes for a column numbered [n]: none for
    a column without cells, under [-notitles], or when the first cell is
    blank. *)
Definition columnLine (TrimSpace : string -> string) (fl : Flags) (n : Z) (col : Column)
  : list Output :=
  match col with
  | [] => []
  | title :: _ =>
      if negb (noColNames fl) && (0 <? Z.of_nat (String.length (TrimSpace title)))
      then [ColumnName title n (len col)]
      else []
  end.

(** The lines for a list of columns, the first of which is the [i]-th
    column of the run (counting from 0, as a machine integer). *)
Fixpoint columnLines (TrimSpace : string -> string) (fl : Flags) (i : nat)
    (cols : list Column) : list Output :=
  match cols with
  | [] => []
  | col :: cols' =>
      columnLine TrimSpace fl (wrap (Z.of_nat i)) col
      ++ columnLines TrimSpace fl (S i) cols'
  end.

(** The flags with [-striptitles] set to [b]. *)
Definition withStripColNames (b : bool) (fl : Flags) : Flags :=
  mkFlags (allSheets fl) (useSheet fl) (noColNames fl) b (tableMode fl)
    (statsMode fl) (asJson fl) (asGo fl) (asCSV fl) (inPath fl) (outPath fl).

(** [strings.TrimSpace] on ASCII text: the white space characters are the
    space, [\t], [\n], [\v], [\f] and [\r]. *)
Definition isSpace (a : ascii) : bool :=
  let n := nat_of_ascii a in
  (n =? 32)%nat || ((9 <=? n)%nat && (n <=? 13)%nat).

Fixpoint trimLeft (l : list ascii) : list ascii :=
  match l with
  | [] => []
  | a :: l' => if isSpace a then trimLeft l' else l
  end.

Definition trimSpaceASCII (s : string) : string :=
  string_of_list_ascii
    (rev (trimLeft (rev (trimLeft (list_ascii_of_string s))))).

(** ** Sample workbooks and command lines *)

Definition people : File :=
  [("Sheet1", [["Name"; "Alice"; "Bob"]; ["Age"; "30"; "25"]])].

Definition twoSheets : File :=
  [("Sheet1", [["a"; "b"]]); ("Sheet2", [["x"; "y"]])].

Definition ragged : File :=
  [("Sheet1", [["Name"; "Alice"; "Bob"]; ["Age"]; []; ["Name"; "Carol"]])].

(** [xl -striptitles -csv] *)
Definition flagsStripCSV : Flags :=
  mkFlags false EmptyString false true false false false false true EmptyString EmptyString.
(** [xl -notitles -csv] *)
Definition flagsNoTitlesCSV : Flags :=
  mkFlags false EmptyString true false false false false false true EmptyString EmptyString.
(** [xl -csv] *)
Definition flagsCSV : Flags :=
  mkFlags false EmptyString false false false false false false true EmptyString EmptyString.
(** [xl -sheet Sheet2 -csv] *)
Definition flagsSheet2CSV : Flags :=
  mkFlags false "Sheet2" false false false false false false true EmptyString EmptyString.
(** [xl -sheet Sheet2 -table -json] *)
Definition flagsSheet2TableJson : Flags :=
  mkFlags false "Sheet2" false false true false true false false EmptyString EmptyString.
(** [xl -notitles -json] *)
Definition flagsNoTitlesJson : Flags :=
  mkFlags false EmptyString true false false false true false false EmptyString EmptyString.
(** [xl -json] *)
Definition flagsJson : Flags :=
  mkFlags false EmptyString false false false false true false false EmptyString EmptyString.
(** [xl -table -stats -json] *)
Definition flagsTableStatsJson : Flags :=
  mkFlags false EmptyString false false true true true false false EmptyString EmptyString.
(** [xl -table -json] *)
Definition flagsTableJson : Flags :=
  mkFlags false EmptyString false false true false true false false EmptyString EmptyString.
(** [xl -sheet Missing -json] *)
Definition flagsMissingJson : Flags :=
  mkFlags false "Missing" false false false false true false false EmptyString EmptyString.
(** [xl -all -json] *)
Definition flagsAllJson : Flags :=
  mkFlags true EmptyString false false false false true false false EmptyString EmptyString.

(** [xl -all -csv] *)
Definition flagsAllCSV : Flags :=
  mkFlags true EmptyString false false false false false false true EmptyString EmptyString.
(** [xl -stats -csv] *)
Definition flagsStatsCSV : Flags :=
  mkFlags false EmptyString false false false true false false true EmptyString EmptyString.
(** [xl -notitles -stats -json] *)
Definition flagsNoTitlesStatsJson : Flags :=
  mkFlags false EmptyString true false false true true false false EmptyString EmptyString.
(** [xl -all -table -json] *)
Definition flagsAllTableJson : Flags :=
  mkFlags true EmptyString false false true false true false false EmptyString EmptyString.

(** A sheet whose second column has a blank first cell. *)
Definition blankTitle : File :=
  [("Sheet1", [["Name"; "Alice"]; [" "; "30"]; []; ["City"]])].

(** A workbook whose second sheet starts with a column without cells. *)
Definition secondBad : File :=
  [("Sheet1", [["Name"; "Alice"]; ["Age"; "30"]]); ("Sheet2", [[]; ["City"]])].

Section Run.

(** [strings.TrimSpace], of the Go standard library. *)
Variable TrimSpace : string -> string.

Variable fl : Flags.
Variable xf : File.

(** Lines 196-203.  The test on line 198 reads [*noColNames]. *)
Definition fillCol (ci : nat) (col : Column) (tab : list (list string))
  : option (list (list string)) :=
  forIdx 0 col
    (fun ri v tab =>
       if noColNames fl && (ri =? 0)%nat then Some tab
       else setCell tab ri ci v)
    tab.

Definition fillTab (records : list Column) (tab : list (list string))
  : option (list (list string)) :=
  forIdx 0 records fillCol tab.

Definition transpose (records : list Column) : option (list (list string)) :=
  let nCols := length records in
  let nRows := maxRows records in
  fillTab records (makeTab nRows nCols).

(** ** The loops of [main] *)

(** Lines 129-136, the body of [for rowi, rowCell := range col]. *)
Definition cellBody (mode : Mode) (col : Column) (rowi : nat) (rowCell : string)
  : M unit :=
  (if negb (noColNames fl) && (rowi =? 0)%nat
        && (0 <? Z.of_nat (String.length (TrimSpace rowCell)))
   then
     if decide (mode = Stats)
     then s ← get; write (ColumnName rowCell (wrap (nCols s - 1)) (len col))
     else skip
   else skip) ;;
  modify (fun s => set_nRows (incr (nRows s)) s).

(** Lines 109-127, the [switch mode]. *)
Definition shape (mode : Mode) (sheet : string) (col : Column) : M unit :=
  match mode with
  | Map =>
      match col with
      | [] =>                      (* len(col) < 1 *)
          s ← get; fatal (NoTitleOrValues (wrap (nCols s - 1)) sheet)
      | [title] =>                 (* len(col) < 2: col[0] keys []string{} *)
          s ← get;
          match bookTab s !! sheet with
          | Some t => modify (set_bookTab (<[sheet := <[title := []]> t]> (bookTab s)))
          | None => panic
          end
      | title :: values =>         (* col[0] keys col[1:] *)
          s ← get;
          match bookTab s !! sheet with
          | Some t => modify (set_bookTab (<[sheet := <[title := values]> t]> (bookTab s)))
          | None => panic
          end
      end
  | Matrix =>
      modify (fun s =>
        set_bookMat (<[sheet := default [] (bookMat s !! sheet) ++ [col]]> (bookMat s)) s)
  | _ => skip
  end.

(** Lines 103-136, the body of [for cols.Next()]. *)
Definition colBody (mode : Mode) (sheet : string) (col : Column) : M unit :=
  modify (fun s => set_nCols (incr (nCols s)) s) ;;
  modify (set_rowSize (len col)) ;;
  shape mode sheet col ;;
  range 0 col (cellBody mode col).

Fixpoint colLoop (mode : Mode) (sheet : string) (cols : list Column) : M unit :=
  match cols with
  | [] => skip
  | col :: cols' => colBody mode sheet col ;; colLoop mode sheet cols'
  end.

(** Lines 95-137, a sheet that is not skipped. *)
Definition sheetBody (mode : Mode) (sheet : string) : M unit :=
  modify (set_sheetFound true) ;;
  modify (fun s => set_bookTab (<[sheet := ∅]> (bookTab s)) s) ;;
  modify (fun s => set_bookMat (<[sheet := []]> (bookMat s)) s) ;;
  modify (fun s => set_nSheets (incr (nSheets s)) s) ;;
  match Cols xf sheet with
  | Some cols => colLoop mode sheet cols
  | None => fatal (ErrCols sheet)
  end.

(** Lines 91-142, [for _, sheet := range sheets] with its [continue] and
    its [break]. *)
Fixpoint sheetLoop (mode : Mode) (sheets : list string) : M unit :=
  match sheets with
  | [] => skip
  | sheet :: sheets' =>
      if negb (bool_decide (useSheet fl = EmptyString)) && negb (bool_decide (sheet = useSheet fl))
      then sheetLoop mode sheets'
      else
        sheetBody mode sheet ;;
        if negb (allSheets fl) then skip else sheetLoop mode sheets'
  end.

(** Lines 150-208: the three output formats. *)
Definition emit (mode : Mode) (sheets : list string) : M unit :=
  s ← get;
  if asJson fl then
    match mode with
    | Matrix => write (JsonMat (bookMat s))
    | Map => write (JsonTab (bookTab s))
    | _ => skip
    end
  else if asGo fl then
    match mode with
    | Matrix => write (GoMat (bookMat s))
    | Map => write (GoTab (bookTab s))
    | _ => skip
    end
  else if asCSV fl then
    match sheets with
    | defaultSheet :: _ =>
        let records := default [] (bookMat s !! defaultSheet) in
        match transpose records with
        | Some tab => write (CsvRecords tab)
        | None => panic
        end
    | [] => panic
    end
  else skip.

(** [main], from the opened workbook on. *)
Definition mainM : M unit :=
  let mode := selectMode fl in
  let sheets := GetSheetList xf in
  sheetLoop mode sheets ;;
  s ← get;
  eprintln (InfoLine (nSheets s) (nCols s) (nRows s) (rowSize s)) ;;
  (if negb (sheetFound s) then fatal (SheetNotFound (useSheet fl)) else skip) ;;
  emit mode sheets.

Definition main : Outcome :=
  match mainM init with
  | Next _ s => mkOutcome 0 (err s) (out s) true
  | Exit o => o
  end.


(** The line of counts a run that goes through the sheet loop puts on
    the diagnostic stream. *)
Definition infoLine : Diag :=
  let cols := colsIn xf (scope fl (GetSheetList xf)) in
  InfoLine (wrap (len (scope fl (GetSheetList xf)))) (wrap (len cols))
           (wrap (Z.of_nat (cellCount cols))) (lastLen cols 0).

(** Reduction of the projections of states and outcomes only. *)
Ltac fields :=
  cbn [bookTab bookMat nSheets nRows nCols sheetFound rowSize out err
       status diagnostics written flushed].

(** ** The transposer *)

Section Transposer.

Local Open Scope nat_scope.

Lemma rect_lookup R C tab r row :
  rect R C tab -> tab !! r = Some row -> length row = C.
Proof.
  intros [_ Hall] Hr. rewrite Forall_forall in Hall.
  apply Hall, list_elem_of_lookup. eauto.
Qed.

Lemma rect_ext R C t1 t2 :
  rect R C t1 -> rect R C t2 ->
  (forall r c, r < R -> c < C -> cellAt t1 r c = cellAt t2 r c) ->
  t1 = t2.
Proof.
  intros H1 H2 Hcells. apply list_eq. intros r.
  destruct (decide (r < R)) as [Hr|Hr].
  - destruct (lookup_lt_is_Some_2 t1 r) as [row1 E1]; [destruct H1; lia|].
    destruct (lookup_lt_is_Some_2 t2 r) as [row2 E2]; [destruct H2; lia|].
    rewrite E1, E2. f_equal. apply list_eq. intros c.
    destruct (decide (c < C)) as [Hc|Hc].
    + specialize (Hcells r c Hr Hc). unfold cellAt in Hcells.
      now rewrite E1, E2 in Hcells.
    + rewrite !lookup_ge_None_2; [reflexivity| |].
      * rewrite (rect_lookup _ _ _ _ _ H2 E2). lia.
      * rewrite (rect_lookup _ _ _ _ _ H1 E1). lia.
  - rewrite !lookup_ge_None_2; [reflexivity| |].
    + destruct H2; lia.
    + destruct H1; lia.
Qed.

Lemma makeTab_rect R C : rect R C (makeTab R C).
Proof.
  split; [apply length_replicate|].
  apply Forall_forall. intros row Hin.
  apply elem_of_replicate in Hin. destruct Hin as [-> _].
  apply length_replicate.
Qed.

Lemma makeTab_cell R C r c :
  r < R -> c < C -> cellAt (makeTab R C) r c = Some EmptyString.
Proof.
  intros Hr Hc. unfold cellAt, makeTab.
  rewrite lookup_replicate_2 by exact Hr.
  now apply lookup_replicate_2.
Qed.

Lemma setCell_spec R C tab r c v :
  rect R C tab -> r < R -> c < C ->
  exists tab',
    setCell tab r c v = Some tab' /\ rect R C tab' /\
    forall r' c',
      cellAt tab' r' c' =
        if decide (r' = r /\ c' = c) then Some v else cellAt tab r' c'.
Proof.
clear TrimSpace.
  intros Hrect Hr Hc. unfold setCell.
  destruct (lookup_lt_is_Some_2 tab r) as [row Hrow]; [destruct Hrect; lia|].
  rewrite Hrow.
  pose proof (rect_lookup _ _ _ _ _ Hrect Hrow) as Hlen.
  destruct (decide (c < length row)) as [_|Hn]; [|lia].
  eexists. split; [reflexivity|]. split.
  - destruct Hrect as [HR Hall]. split; [now rewrite length_insert|].
    apply Forall_insert; [exact Hall|]. now rewrite length_insert.
  - intros r' c'. unfold cellAt.
    destruct (decide (r' = r)) as [->|Hne].
    + rewrite list_lookup_insert_eq by (destruct Hrect; lia).
      rewrite Hrow.
      destruct (decide (c' = c)) as [->|Hnc].
      * rewrite list_lookup_insert_eq by lia.
        destruct (decide (r = r /\ c = c)) as [_|Hx]; [reflexivity|tauto].
      * rewrite list_lookup_insert_ne by congruence.
        destruct (decide (r = r /\ c' = c)) as [[_ Hx]|_]; [congruence|reflexivity].
    + rewrite list_lookup_insert_ne by congruence.
      destruct (decide (r' = r /\ c' = c)) as [[Hx _]|_]; [congruence|reflexivity].
Qed.


Lemma fillCol_from R C c col : forall i tab,
  rect R C tab -> c < C -> i + length col <= R ->
  exists tab',
    forIdx i col
      (fun ri v tab =>
         if noColNames fl && (ri =? 0) then Some tab else setCell tab ri c v)
      tab = Some tab' /\
    rect R C tab' /\
    forall r' c',
      cellAt tab' r' c' =
        if decide (c' = c /\ i <= r' < i + length col /\
                   ~ (noColNames fl = true /\ r' = 0))
        then col !! (r' - i) else cellAt tab r' c'.
Proof.
clear TrimSpace.
  induction col as [|v col IH]; intros i tab Hrect Hc Hlen; simpl in *.
  - exists tab. split; [reflexivity|]. split; [exact Hrect|].
    intros r' c'. case_decide; [lia|reflexivity].
  - destruct (noColNames fl && (i =? 0)) eqn:Hskip.
    + apply andb_true_iff in Hskip as [Hno Hi0]. apply Nat.eqb_eq in Hi0. subst i.
      destruct (IH 1 tab Hrect Hc ltac:(lia)) as (tab' & Hrun & Hrect' & Hcells).
      exists tab'. split; [exact Hrun|]. split; [exact Hrect'|].
      intros r' c'. rewrite Hcells.
      repeat case_decide; try reflexivity; try (exfalso; intuition lia).
      all: replace (r' - 0) with (S (r' - 1)) by lia; reflexivity.
    + destruct (setCell_spec R C tab i c v Hrect ltac:(lia) Hc)
        as (tab1 & Hset & Hrect1 & Hcells1).
      rewrite Hset.
      destruct (IH (S i) tab1 Hrect1 Hc ltac:(lia)) as (tab' & Hrun & Hrect' & Hcells).
      exists tab'. split; [exact Hrun|]. split; [exact Hrect'|].
      intros r' c'. rewrite Hcells, Hcells1.
      apply andb_false_iff in Hskip.
      assert (Hns : ~ (noColNames fl = true /\ i = 0)).
      { intros [Ha Hb]. destruct Hskip as [Hs|Hs]; [congruence|].
        apply Nat.eqb_neq in Hs. lia. }
      repeat case_decide; try reflexivity;
        try (exfalso; destruct_and?; subst; intuition (auto; lia)).
      all: try (replace (r' - i) with (S (r' - S i)) by lia; reflexivity).
      all: try (exfalso; destruct_and?; subst;
                match goal with
                | H : ~ _ |- _ => apply H; repeat split; (lia || assumption)
                end).
      all: destruct_and?; subst; now rewrite Nat.sub_diag.
Qed.


Lemma fillTab_from R C records : forall ci tab,
  rect R C tab -> ci + length records <= C ->
  Forall (fun col : Column => length col <= R) records ->
  exists tab',
    forIdx ci records fillCol tab = Some tab' /\
    rect R C tab' /\
    forall r' c',
      cellAt tab' r' c' =
        match (if decide (ci <= c') then records !! (c' - ci) else None) with
        | Some col =>
            if decide (r' < length col /\ ~ (noColNames fl = true /\ r' = 0))
            then col !! r' else cellAt tab r' c'
        | None => cellAt tab r' c'
        end.
Proof.
  induction records as [|col records IH]; intros ci tab Hrect Hlen Hall; simpl in *.
  - exists tab. split; [reflexivity|]. split; [exact Hrect|].
    intros r' c'. destruct (decide (ci <= c')); [now rewrite lookup_nil|reflexivity].
  - apply Forall_cons in Hall as [Hcol Hall].
    unfold fillCol at 1.
    destruct (fillCol_from R C ci col 0 tab Hrect ltac:(lia) ltac:(lia))
      as (tab1 & Hrun1 & Hrect1 & Hcells1).
    rewrite Hrun1.
    destruct (IH (S ci) tab1 Hrect1 ltac:(lia) Hall) as (tab' & Hrun & Hrect' & Hcells).
    exists tab'. split; [exact Hrun|]. split; [exact Hrect'|].
    intros r' c'. rewrite Hcells.
    destruct (decide (S ci <= c')) as [Hgt|Hle].
    + destruct (decide (ci <= c')) as [_|Hx]; [|lia].
      replace (c' - ci) with (S (c' - S ci)) by lia. simpl.
      assert (Hsame : cellAt tab1 r' c' = cellAt tab r' c').
      { rewrite Hcells1. destruct (decide _) as [[? _]|_]; [lia|reflexivity]. }
      now rewrite Hsame.
    + rewrite Hcells1.
      destruct (decide (ci <= c')) as [Hge|Hlt].
      * assert (c' = ci) as -> by lia. rewrite Nat.sub_diag. simpl.
        rewrite Nat.sub_0_r.
        destruct (decide (r' < length col /\ _)) as [[Hlt Hn]|Hn];
          destruct (decide (ci = ci /\ _)) as [Hy|Hy]; try reflexivity.
        -- exfalso. apply Hy. repeat split; (lia || assumption).
        -- exfalso. apply Hn. destruct Hy as (_ & Hy1 & Hy2). split; [lia|assumption].
      * destruct (decide _) as [[? _]|_]; [lia|reflexivity].
Qed.

Lemma maxRows_from (records : list Column) : forall a,
  foldl (fun nRows col => if nRows <? length col then length col else nRows)
        a records
  = a `max` max_list (length <$> records).
Proof.
  induction records as [|col records IH]; intros a; simpl.
  - lia.
  - rewrite IH. destruct (Nat.ltb_spec a (length col)); unfold fmap; lia.
Qed.

Lemma maxRows_max records : maxRows records = max_list (length <$> records).
Proof. unfold maxRows. now rewrite maxRows_from. Qed.

Lemma maxRows_bound records :
  Forall (fun col : Column => length col <= maxRows records) records.
Proof.
  rewrite maxRows_max. apply Forall_forall. intros col Hin.
  apply max_list_elem_of_le. apply list_elem_of_fmap. eauto.
Qed.

Lemma gridOf_rect b R records : rect R (length records) (gridOf b R records).
Proof.
  unfold gridOf. split.
  - now rewrite length_fmap, length_seq.
  - apply Forall_forall. intros row Hin.
    apply list_elem_of_fmap in Hin as (r & -> & _). now rewrite length_fmap.
Qed.

Lemma gridOf_cell b R records r c col :
  r < R -> records !! c = Some col ->
  cellAt (gridOf b R records) r c
  = Some (if b && (r =? 0) then EmptyString else default EmptyString (col !! r)).
Proof.
  intros Hr Hc. unfold cellAt, gridOf.
  rewrite list_lookup_fmap, lookup_seq_lt by exact Hr. simpl.
  now rewrite list_lookup_fmap, Hc.
Qed.

(** What the transposition computes, whatever the flags. *)
Lemma transpose_gridOf records :
  transpose records = Some (gridOf (noColNames fl) (maxRows records) records).
Proof.
  unfold transpose, fillTab.
  destruct (fillTab_from (maxRows records) (length records) records 0
              (makeTab (maxRows records) (length records))
              (makeTab_rect _ _) ltac:(lia) (maxRows_bound records))
    as (tab & Hrun & Hrect & Hcells).
  rewrite Hrun. f_equal.
  apply (rect_ext _ _ _ _ Hrect (gridOf_rect _ _ _)).
  intros r c Hr Hc.
  destruct (lookup_lt_is_Some_2 records c Hc) as [col Hcol].
  rewrite (gridOf_cell _ _ _ _ _ col Hr Hcol), Hcells.
  destruct (decide (0 <= c)) as [_|Hx]; [|lia].
  rewrite Nat.sub_0_r, Hcol, makeTab_cell by assumption.
  destruct (decide (r < length col /\ _)) as [[Hlt Hn]|Hd].
  - destruct (lookup_lt_is_Some_2 col r Hlt) as [v Hv]. rewrite Hv. simpl.
    destruct (noColNames fl) eqn:Hno; simpl; [|reflexivity].
    destruct (Nat.eqb_spec r 0) as [->|Hr0]; [|reflexivity].
    exfalso. apply Hn. split; reflexivity.
  - destruct (noColNames fl) eqn:Hno; simpl.
    + destruct (Nat.eqb_spec r 0) as [->|Hr0]; [reflexivity|].
      rewrite lookup_ge_None_2; [reflexivity|].
      destruct (decide (r < length col)); [|lia].
      exfalso. apply Hd. split; [assumption|]. intros [_ ?]. lia.
    + rewrite lookup_ge_None_2; [reflexivity|].
      destruct (decide (r < length col)); [|lia].
      exfalso. apply Hd. split; [assumption|]. intros [? _]. discriminate.
Qed.

End Transposer.

(** ** The column loop *)

Lemma lastLen_cons col cols d : lastLen (col :: cols) d = lastLen cols (len col).
Proof. unfold lastLen. rewrite last_cons. now destruct (last cols). Qed.

Lemma state_eta s :
  mkState (bookTab s) (bookMat s) (nSheets s) (nRows s) (nCols s)
          (sheetFound s) (rowSize s) (out s) (err s) = s.
Proof. now destruct s. Qed.

(** The cell loop counts the cells; it only writes in statistics mode. *)
Lemma cells_run mode col cells : forall i s,
  exists o,
    (mode <> Stats -> o = []) /\
    range i cells (cellBody mode col) s
    = Next tt (set_out (out s ++ o)
                 (set_nRows (Nat.iter (length cells) incr (nRows s)) s)).
Proof.
  induction cells as [|cell cells IH]; intros i s.
  - exists []. split; [reflexivity|]. simpl. unfold skip, mret, M_ret.
    destruct s; unfold set_out, set_nRows; simpl. now rewrite app_nil_r.
  - simpl range. unfold mbind, M_bind.
    assert (Hbody : exists o1, (mode <> Stats -> o1 = []) /\
              cellBody mode col i cell s
              = Next tt (set_nRows (incr (nRows s)) (set_out (out s ++ o1) s))).
    { unfold cellBody, mbind, M_bind.
      destruct (negb (noColNames fl) && (i =? 0)%nat
                && (0 <? Z.of_nat (String.length (TrimSpace cell)))).
      - destruct (decide (mode = Stats)) as [->|Hne].
        + eexists. split; [intros Hx; now destruct Hx|]. reflexivity.
        + exists []. split; [reflexivity|]. unfold skip, mret, M_ret, modify.
          destruct s; unfold set_out, set_nRows; simpl. now rewrite app_nil_r.
      - exists []. split; [reflexivity|]. unfold skip, mret, M_ret, modify.
        destruct s; unfold set_out, set_nRows; simpl. now rewrite app_nil_r. }
    destruct Hbody as (o1 & Ho1 & ->).
    destruct (IH (S i) (set_nRows (incr (nRows s)) (set_out (out s ++ o1) s)))
      as (o2 & Ho2 & ->).
    exists (o1 ++ o2). split.
    + intros Hne. now rewrite Ho1, Ho2.
    + destruct s; unfold set_out, set_nRows; simpl.
      now rewrite <- Nat.iter_succ_r, <- app_assoc.
Qed.

(** One column in Mapping mode. *)
Lemma colBody_Map_nil sheet s :
  colBody Map sheet [] s = Exit (noTitleExit 0 sheet s).
Proof. reflexivity. Qed.

Lemma colBody_Map_cons sheet title values s t :
  bookTab s !! sheet = Some t ->
  colBody Map sheet (title :: values) s
  = Next tt (mkState (<[sheet := <[title := values]> t]> (bookTab s)) (bookMat s)
               (nSheets s) (Nat.iter (length (title :: values)) incr (nRows s))
               (incr (nCols s)) (sheetFound s) (len (title :: values))
               (out s) (err s)).
Proof.
  intros Ht. unfold colBody, mbind, M_bind, modify.
  assert (Hshape :
    shape Map sheet (title :: values)
      (set_rowSize (len (title :: values)) (set_nCols (incr (nCols s)) s))
    = Next tt (set_bookTab (<[sheet := <[title := values]> t]> (bookTab s))
                 (set_rowSize (len (title :: values))
                    (set_nCols (incr (nCols s)) s)))).
  { unfold shape, mbind, M_bind, get, modify. destruct values; simpl; now rewrite Ht. }
  rewrite Hshape.
  destruct (cells_run Map (title :: values) (title :: values) 0
              (set_bookTab (<[sheet := <[title := values]> t]> (bookTab s))
                 (set_rowSize (len (title :: values))
                    (set_nCols (incr (nCols s)) s))))
    as (o & Ho & ->).
  rewrite Ho by discriminate. destruct s; simpl. now rewrite app_nil_r.
Qed.

(** One column in the other modes. *)
Lemma colBody_other mode sheet col s :
  mode <> Map ->
  exists o,
    (mode <> Stats -> o = []) /\
    colBody mode sheet col s
    = Next tt (mkState (bookTab s)
                 (match mode with
                  | Matrix => <[sheet := default [] (bookMat s !! sheet) ++ [col]]> (bookMat s)
                  | _ => bookMat s
                  end)
                 (nSheets s) (Nat.iter (length col) incr (nRows s))
                 (incr (nCols s)) (sheetFound s) (len col)
                 (out s ++ o) (err s)).
Proof.
  intros Hmode. unfold colBody, mbind, M_bind, modify.
  destruct mode; try congruence; simpl shape; unfold skip, mret, M_ret, modify.
  all: match goal with
       | |- context [range 0 ?c (cellBody ?m ?c) ?s0] =>
           destruct (cells_run m c c 0 s0) as (o & Ho & ->)
       end.
  all: exists o; split; [exact Ho|]; now destruct s.
Qed.

Lemma iter_incr_incr n z : Nat.iter n incr (incr z) = Nat.iter (S n) incr z.
Proof. now rewrite Nat.iter_succ_r. Qed.

Lemma iter_incr_iter n m z :
  Nat.iter n incr (Nat.iter m incr z) = Nat.iter (m + n) incr z.
Proof. now rewrite Nat.add_comm, Nat.iter_add. Qed.

Lemma noTitleExit_step k sheet s s1 :
  err s1 = err s -> out s1 = out s -> nCols s1 = incr (nCols s) ->
  noTitleExit k sheet s1 = noTitleExit (S k) sheet s.
Proof.
  intros He Ho Hn. unfold noTitleExit. now rewrite He, Ho, Hn, iter_incr_incr.
Qed.

(** The column loop of one sheet: in Mapping mode it stops on the first
    column without cells; otherwise it goes through all the columns. *)
Lemma colLoop_spec mode sheet cols : forall s t m,
  bookTab s !! sheet = Some t -> bookMat s !! sheet = Some m ->
  exists o,
    (mode <> Stats -> o = []) /\
    colLoop mode sheet cols s
    = match (if decide (mode = Map) then firstEmpty (pair sheet <$> cols) else None) with
      | Some (k, sh) => Exit (noTitleExit k sh s)
      | None =>
          Next tt (mkState (<[sheet := tabOf mode t cols]> (bookTab s))
                     (<[sheet := matOf mode m cols]> (bookMat s))
                     (nSheets s) (Nat.iter (cellCount cols) incr (nRows s))
                     (Nat.iter (length cols) incr (nCols s))
                     (sheetFound s) (lastLen cols (rowSize s))
                     (out s ++ o) (err s))
      end.
Proof.
  induction cols as [|col cols IH]; intros s t m Ht Hm.
  - exists []. split; [reflexivity|].
    assert (Hnone : (if decide (mode = Map) then firstEmpty (pair sheet <$> []) else None)
                    = None) by (now destruct (decide (mode = Map))).
    rewrite Hnone. simpl. unfold skip, mret, M_ret. f_equal.
    assert (tabOf mode t [] = t) as -> by now destruct mode.
    assert (matOf mode m [] = m) as ->
        by (destruct mode; simpl; try reflexivity; apply app_nil_r).
    rewrite !insert_id by assumption. rewrite app_nil_r. unfold lastLen. simpl.
    symmetry. apply state_eta.
  - simpl colLoop. unfold mbind, M_bind.
    destruct (decide (mode = Map)) as [->|Hmode].
    + destruct col as [|title values].
      * exists []. split; [reflexivity|]. now rewrite colBody_Map_nil.
      * rewrite (colBody_Map_cons _ _ _ _ _ Ht).
        match goal with
        | |- context [colLoop Map sheet cols ?s1] =>
            destruct (IH s1 (<[title := values]> t) m) as (o & Ho & ->)
        end; [apply lookup_insert_eq|exact Hm|].
        exists o. split; [exact Ho|].
        destruct (decide (Map = Map)) as [_|Hx]; [|congruence].
        rewrite fmap_cons. simpl firstEmpty.
        destruct (firstEmpty (pair sheet <$> cols)) as [[k sh]|].
        -- f_equal. now apply noTitleExit_step.
        -- fields.
           rewrite insert_insert_eq, iter_incr_incr, iter_incr_iter, lastLen_cons.
           reflexivity.
    + destruct (colBody_other mode sheet col s Hmode) as (o1 & Ho1 & ->).
      match goal with
      | |- context [colLoop mode sheet cols ?s1] =>
          destruct (IH s1 t (matOf mode m [col])) as (o2 & Ho2 & ->)
      end; [exact Ht| |].
      { fields. destruct mode; simpl; try exact Hm.
        now rewrite Hm, lookup_insert_eq. }
      exists (o1 ++ o2). split; [intros Hne; now rewrite Ho1, Ho2|].
      fields. rewrite iter_incr_incr, iter_incr_iter, lastLen_cons, app_assoc.
      f_equal. f_equal.
      * now destruct mode.
      * destruct mode; simpl; try reflexivity; try congruence.
        now rewrite Hm, insert_insert_eq, <- app_assoc.
Qed.

(** ** The sheet loop *)

Lemma cellCount_app l1 l2 : cellCount (l1 ++ l2) = (cellCount l1 + cellCount l2)%nat.
Proof. induction l1 as [|c l1 IH]; simpl; [reflexivity|]. rewrite IH. lia. Qed.

Lemma lastLen_app l1 l2 d : lastLen (l1 ++ l2) d = lastLen l2 (lastLen l1 d).
Proof.
  revert d. induction l1 as [|c l1 IH]; intros d; [reflexivity|].
  rewrite <- app_comm_cons, !lastLen_cons. apply IH.
Qed.

Lemma firstEmpty_app l1 l2 :
  firstEmpty (l1 ++ l2)
  = match firstEmpty l1 with
    | Some r => Some r
    | None =>
        match firstEmpty l2 with
        | Some (k, sh) => Some ((length l1 + k)%nat, sh)
        | None => None
        end
    end.
Proof.
  induction l1 as [|[sh [|c col]] l1 IH]; simpl.
  - now destruct (firstEmpty l2) as [[k sh]|].
  - reflexivity.
  - rewrite IH. destruct (firstEmpty l1) as [[k sh']|]; [reflexivity|].
    now destruct (firstEmpty l2) as [[k sh']|].
Qed.

Lemma columnsOf_cons sheet sc :
  columnsOf xf (sheet :: sc) = (pair sheet <$> colsOf xf sheet) ++ columnsOf xf sc.
Proof. reflexivity. Qed.

Lemma colsIn_cons sheet sc : colsIn xf (sheet :: sc) = colsOf xf sheet ++ colsIn xf sc.
Proof.
  unfold colsIn. rewrite columnsOf_cons, fmap_app. f_equal.
  rewrite <- list_fmap_compose. apply list_fmap_id.
Qed.

Lemma sheetBody_run mode sheet cols s :
  Cols xf sheet = Some cols ->
  sheetBody mode sheet s
  = colLoop mode sheet cols
      (mkState (<[sheet := ∅]> (bookTab s)) (<[sheet := []]> (bookMat s))
         (incr (nSheets s)) (nRows s) (nCols s) true (rowSize s) (out s) (err s)).
Proof. intros Hc. unfold sheetBody, mbind, M_bind, modify. now rewrite Hc. Qed.

(** The sheet loop: in Mapping mode it stops on the first column without
    cells among the columns of the sheets in scope; otherwise it goes
    through all of them. *)
Lemma sheetLoop_spec mode : forall sheets s,
  Forall (fun sheet => is_Some (Cols xf sheet)) sheets ->
  exists o,
    (mode <> Stats -> o = []) /\
    sheetLoop mode sheets s
    = match (if decide (mode = Map)
             then firstEmpty (columnsOf xf (scope fl sheets)) else None) with
      | Some (k, sh) => Exit (noTitleExit k sh s)
      | None =>
          Next tt (mkState (bookTabOf mode xf (scope fl sheets) (bookTab s))
                     (bookMatOf mode xf (scope fl sheets) (bookMat s))
                     (Nat.iter (length (scope fl sheets)) incr (nSheets s))
                     (Nat.iter (cellCount (colsIn xf (scope fl sheets))) incr (nRows s))
                     (Nat.iter (length (colsIn xf (scope fl sheets))) incr (nCols s))
                     (sheetFound s || negb (bool_decide (scope fl sheets = [])))
                     (lastLen (colsIn xf (scope fl sheets)) (rowSize s))
                     (out s ++ o) (err s))
      end.
Proof.
  induction sheets as [|sheet sheets IH]; intros s Hall.
  - exists []. split; [reflexivity|]. simpl scope.
    assert (Hnone : (if decide (mode = Map) then firstEmpty (columnsOf xf []) else None)
                    = None) by (now destruct (decide (mode = Map))).
    rewrite Hnone. simpl. unfold skip, mret, M_ret. f_equal.
    rewrite orb_false_r, app_nil_r. symmetry. apply state_eta.
  - apply Forall_cons in Hall as [[cols Hcols] Hall].
    simpl sheetLoop. simpl scope.
    destruct (negb (bool_decide (useSheet fl = EmptyString))
              && negb (bool_decide (sheet = useSheet fl))); [now apply IH|].
    unfold mbind at 1, M_bind at 1. rewrite (sheetBody_run _ _ _ _ Hcols).
    assert (HcolsOf : colsOf xf sheet = cols) by (unfold colsOf; now rewrite Hcols).
    match goal with
    | |- context [colLoop mode sheet cols ?s0] =>
        destruct (colLoop_spec mode sheet cols s0 ∅ []) as (o1 & Ho1 & ->)
    end; [apply lookup_insert_eq|apply lookup_insert_eq|].
    fields.
    destruct (decide (mode = Map)) as [->|Hmode].
    + (* Mapping mode *)
      specialize (Ho1 ltac:(discriminate)). subst o1.
      destruct (firstEmpty (pair sheet <$> cols)) as [[k sh]|] eqn:Hfirst.
      * exists []. split; [reflexivity|].
        destruct (negb (allSheets fl));
          rewrite columnsOf_cons, firstEmpty_app, HcolsOf, Hfirst; reflexivity.
      * destruct (negb (allSheets fl)).
        -- exists []. split; [reflexivity|].
           rewrite columnsOf_cons, firstEmpty_app, HcolsOf, Hfirst. simpl.
           unfold skip, mret, M_ret. f_equal. unfold bookTabOf, bookMatOf. simpl.
           rewrite !insert_insert_eq, colsIn_cons, HcolsOf. unfold colsIn. simpl.
           rewrite !app_nil_r, orb_true_r. reflexivity.
        -- match goal with
           | |- context [sheetLoop Map sheets ?s1] =>
               destruct (IH s1 Hall) as (o2 & Ho2 & ->)
           end.
           specialize (Ho2 ltac:(discriminate)). subst o2.
           exists []. split; [reflexivity|].
           destruct (decide (Map = Map)) as [_|Hx]; [|congruence].
           rewrite columnsOf_cons, firstEmpty_app, HcolsOf, Hfirst.
           destruct (firstEmpty (columnsOf xf (scope fl sheets))) as [[k sh]|].
           ++ f_equal. unfold noTitleExit. fields.
              rewrite !app_nil_r, length_fmap, iter_incr_iter.
              now rewrite Nat.add_succ_r.
           ++ f_equal. fields. unfold bookTabOf, bookMatOf. simpl foldl.
              rewrite !insert_insert_eq, colsIn_cons, HcolsOf.
              rewrite !app_nil_r, orb_true_r, orb_true_l.
              rewrite cellCount_app, length_app, lastLen_app, !iter_incr_iter.
              rewrite iter_incr_incr. reflexivity.
    + (* the other modes *)
      destruct (negb (allSheets fl)).
      * exists o1. split; [exact Ho1|]. unfold skip, mret, M_ret. f_equal.
        unfold bookTabOf, bookMatOf. simpl.
        rewrite !insert_insert_eq, colsIn_cons, HcolsOf. unfold colsIn. simpl.
        rewrite !app_nil_r, orb_true_r. reflexivity.
      * match goal with
        | |- context [sheetLoop mode sheets ?s1] =>
            destruct (IH s1 Hall) as (o2 & Ho2 & ->)
        end.
        destruct (decide (mode = Map)) as [Hx|_]; [congruence|].
        exists (o1 ++ o2). split; [intros Hne; now rewrite Ho1, Ho2|].
        f_equal. fields. unfold bookTabOf, bookMatOf. simpl foldl.
        rewrite !insert_insert_eq, colsIn_cons, HcolsOf.
        rewrite orb_true_r, orb_true_l, app_assoc.
        rewrite cellCount_app, length_app, lastLen_app, !iter_incr_iter.
        rewrite iter_incr_incr. reflexivity.
Qed.

(** ** Counters *)

Lemma wrap_small z : - 2 ^ 63 <= z < 2 ^ 63 -> wrap z = z.
Proof. intros Hz. unfold wrap. rewrite Z.mod_small; lia. Qed.

Lemma wrap_wrap_add a b : wrap (wrap a + b) = wrap (a + b).
Proof.
  unfold wrap. f_equal.
  replace ((a + 2 ^ 63) mod 2 ^ 64 - 2 ^ 63 + b + 2 ^ 63)
    with ((a + 2 ^ 63) mod 2 ^ 64 + b) by lia.
  rewrite Zplus_mod_idemp_l. f_equal. lia.
Qed.

Lemma iter_incr_wrap n z : Nat.iter n incr (wrap z) = wrap (z + Z.of_nat n).
Proof.
  induction n as [|n IH].
  - simpl. f_equal. lia.
  - rewrite Nat.iter_succ, IH. unfold incr. rewrite wrap_wrap_add. f_equal. lia.
Qed.

Lemma iter_incr_0 n : Nat.iter n incr 0 = wrap (Z.of_nat n).
Proof. change 0 with (wrap 0) at 1. now rewrite iter_incr_wrap. Qed.

Lemma wrap_pred_iter k : wrap (Nat.iter (S k) incr 0 - 1) = wrap (Z.of_nat k).
Proof.
  rewrite iter_incr_0.
  replace (wrap (Z.of_nat (S k)) - 1) with (wrap (Z.of_nat (S k)) + (-1)) by lia.
  rewrite wrap_wrap_add. f_equal. lia.
Qed.

(** ** The whole run *)

Lemma Cols_GetSheetList : Forall (fun sheet => is_Some (Cols xf sheet)) (GetSheetList xf).
Proof.
  apply Forall_forall. intros sheet Hin. unfold GetSheetList in Hin.
  apply list_elem_of_In, in_map_iff in Hin as ([sh cols] & Heq & Hin).
  simpl in Heq. subst sh. unfold Cols.
  destruct (List.find (fun p => bool_decide (fst p = sheet)) xf) as [p|] eqn:Hfind.
  - now eexists.
  - exfalso. apply (find_none _ _ Hfind) in Hin. simpl in Hin.
    now rewrite bool_decide_eq_true_2 in Hin.
Qed.

Lemma sheetLoop_none mode : forall sheets s,
  scope fl sheets = [] -> sheetLoop mode sheets s = Next tt s.
Proof.
  induction sheets as [|sheet sheets IH]; intros s Hsc; [reflexivity|].
  simpl in *.
  destruct (negb (bool_decide (useSheet fl = EmptyString))
            && negb (bool_decide (sheet = useSheet fl))); [now apply IH|discriminate].
Qed.

Lemma emit_run mode defaultSheet sheets s :
  emit mode (defaultSheet :: sheets) s
  = Next tt (set_out (out s ++ emitted fl mode (bookTab s) (bookMat s) defaultSheet) s).
Proof.
  unfold emit, emitted, mbind, M_bind, get.
  assert (Hskip : skip s = Next tt (set_out (out s ++ []) s)).
  { unfold skip, mret, M_ret. f_equal. rewrite app_nil_r. now destruct s. }
  destruct (asJson fl); [destruct mode; try exact Hskip; reflexivity|].
  destruct (asGo fl); [destruct mode; try exact Hskip; reflexivity|].
  destruct (asCSV fl); [|exact Hskip].
  now rewrite transpose_gridOf.
Qed.

(** Every run ends in one of three ways. *)
Lemma main_spec :
  exists o,
    (selectMode fl <> Stats -> o = []) /\
    main
    = match (if decide (selectMode fl = Map)
             then firstEmpty (processed fl xf) else None) with
      | Some (k, sh) =>
          mkOutcome 1 [NoTitleOrValues (wrap (Z.of_nat k)) sh] [] false
      | None =>
          match scope fl (GetSheetList xf) with
          | [] => mkOutcome 1 [InfoLine 0 0 0 0; SheetNotFound (useSheet fl)] [] false
          | _ :: _ =>
              mkOutcome 0 [infoLine]
                (o ++ emitted fl (selectMode fl)
                        (bookTabOf (selectMode fl) xf (scope fl (GetSheetList xf)) ∅)
                        (bookMatOf (selectMode fl) xf (scope fl (GetSheetList xf)) ∅)
                        (default EmptyString (head (GetSheetList xf))))
                true
          end
      end.
Proof.
  unfold main, mainM, processed.
  destruct (scope fl (GetSheetList xf)) as [|sh0 sc] eqn:Hsc.
  - exists []. split; [reflexivity|].
    unfold mbind at 1, M_bind at 1. rewrite (sheetLoop_none _ _ _ Hsc).
    now destruct (decide (selectMode fl = Map)).
  - destruct (sheetLoop_spec (selectMode fl) (GetSheetList xf) init Cols_GetSheetList)
      as (o & Ho & Hrun).
    exists o. split; [exact Ho|].
    unfold mbind at 1, M_bind at 1. rewrite Hrun, Hsc. clear Hrun.
    destruct (if decide (selectMode fl = Map)
              then firstEmpty (columnsOf xf (sh0 :: sc)) else None)
      as [[k sh]|] eqn:Hfirst.
    + unfold noTitleExit, init. fields. simpl app.
      change (incr (Nat.iter k incr 0)) with (Nat.iter (S k) incr 0).
      now rewrite wrap_pred_iter.
    + unfold mbind, M_bind, get, eprintln, modify, init. fields. simpl orb.
      destruct (GetSheetList xf) as [|defaultSheet sheets] eqn:Hsheets;
        [discriminate|].
      rewrite bool_decide_eq_false_2 by discriminate.
      change (negb (false || negb false)) with false. cbv iota.
      unfold skip at 1, mret, M_ret. cbv beta. rewrite emit_run. unfold set_err, set_out. fields.
      rewrite !iter_incr_0, !app_nil_l.
      unfold infoLine. rewrite Hsheets, Hsc. reflexivity.
Qed.

(** ** Facts about the vocabulary *)

(** The sheets in scope are those that pass the test of [-sheet], and
    without [-all] the first of them only. *)
Lemma scope_filter sheets :
  scope fl sheets
  = (if allSheets fl then id else take 1)
      (filter (fun sheet => useSheet fl = EmptyString \/ sheet = useSheet fl) sheets).
Proof.
clear TrimSpace.
  induction sheets as [|sheet sheets IH]; [now destruct (allSheets fl)|].
  simpl scope.
  destruct (decide (useSheet fl = EmptyString \/ sheet = useSheet fl)) as [Hin|Hout].
  - rewrite filter_cons_True by exact Hin.
    assert (negb (bool_decide (useSheet fl = EmptyString))
            && negb (bool_decide (sheet = useSheet fl)) = false) as ->.
    { destruct Hin as [H|H]; rewrite (bool_decide_eq_true_2 _ H); simpl;
        [reflexivity|apply andb_false_r]. }
    rewrite IH. now destruct (allSheets fl).
  - rewrite filter_cons_False by exact Hout.
    rewrite !bool_decide_eq_false_2 by tauto. simpl. exact IH.
Qed.

Lemma firstEmpty_at pre sheet post :
  Forall (fun p : string * Column => snd p <> []) pre ->
  firstEmpty (pre ++ (sheet, []) :: post) = Some (length pre, sheet).
Proof.
  induction pre as [|[sh col] pre IH]; intros Hall; [reflexivity|].
  apply Forall_cons in Hall as [Hcol Hall]. simpl in Hcol.
  rewrite <- app_comm_cons. simpl. rewrite (IH Hall).
  destruct col; [congruence|reflexivity].
Qed.

Lemma firstEmpty_none l :
  Forall (fun p : string * Column => snd p <> []) l -> firstEmpty l = None.
Proof.
  induction l as [|[sh col] l IH]; intros Hall; [reflexivity|].
  apply Forall_cons in Hall as [Hcol Hall]. simpl in *. rewrite (IH Hall).
  destruct col; [congruence|reflexivity].
Qed.

Lemma scope_missing sheets :
  useSheet fl <> EmptyString -> useSheet fl ∉ sheets -> scope fl sheets = [].
Proof.
  intros Hne. induction sheets as [|sheet sheets IH]; intros Hnin; [reflexivity|].
  apply not_elem_of_cons in Hnin as [Hsheet Hnin]. simpl.
  rewrite bool_decide_eq_false_2 by exact Hne.
  rewrite (bool_decide_eq_false_2 (sheet = useSheet fl)) by congruence.
  simpl. now apply IH.
Qed.

Lemma foldl_insert_lookup {V : Type} (f : string -> V) sc :
  forall (m : gmap string V) sheet,
    sheet ∈ sc ->
    foldl (fun m sh => <[sh := f sh]> m) m sc !! sheet = Some (f sheet).
Proof.
  induction sc as [|x sc IH] using rev_ind; intros m sheet Hin.
  - now apply elem_of_nil in Hin.
  - rewrite foldl_app. simpl.
    destruct (decide (x = sheet)) as [->|Hne]; [apply lookup_insert_eq|].
    rewrite lookup_insert_ne by exact Hne.
    apply IH. apply elem_of_app in Hin as [Hin|Hin]; [exact Hin|].
    apply list_elem_of_singleton in Hin. congruence.
Qed.

Lemma bookTabOf_lookup mode sc bt sheet :
  sheet ∈ sc ->
  bookTabOf mode xf sc bt !! sheet = Some (tabOf mode ∅ (colsOf xf sheet)).
Proof.
  intros Hin. unfold bookTabOf.
  apply (foldl_insert_lookup (fun sh => tabOf mode ∅ (colsOf xf sh))), Hin.
Qed.

Lemma bookMatOf_lookup mode sc bm sheet :
  sheet ∈ sc ->
  bookMatOf mode xf sc bm !! sheet = Some (matOf mode [] (colsOf xf sheet)).
Proof.
  intros Hin. unfold bookMatOf.
  apply (foldl_insert_lookup (fun sh => matOf mode [] (colsOf xf sh))), Hin.
Qed.

Lemma foldl_addCol_keep post title values :
  Forall (fun col : Column => head col <> Some title) post ->
  forall t : gmap string (list string),
    t !! title = Some values -> foldl addCol t post !! title = Some values.
Proof.
  induction post as [|col post IH]; intros Hall t Ht; [exact Ht|].
  apply Forall_cons in Hall as [Hcol Hall]. simpl. apply (IH Hall).
  destruct col as [|h tl]; [exact Ht|]. simpl in *.
  rewrite lookup_insert_ne; [exact Ht|congruence].
Qed.

Lemma foldl_addCol_last pre title values post (t : gmap string (list string)) :
  Forall (fun col : Column => head col <> Some title) post ->
  foldl addCol t (pre ++ (title :: values) :: post) !! title = Some values.
Proof.
  intros Hall. rewrite foldl_app. simpl.
  apply (foldl_addCol_keep _ _ _ Hall). apply lookup_insert_eq.
Qed.

Lemma selectMode_Map_output :
  selectMode fl = Map ->
  asCSV fl = false /\ (asJson fl = true \/ (asJson fl = false /\ asGo fl = true)).
Proof.
  unfold selectMode.
  destruct (tableMode fl), (stripColNames fl), (asCSV fl), (statsMode fl),
    (asJson fl), (asGo fl); simpl; intros H; try discriminate; auto.
Qed.

(** ** Output mode selection *)

(** C2, amended.  The flags resolve in this order: when none of the
    structured, literal and delimited outputs is requested the mode is
    Statistics; otherwise, when statistics are requested, it is
    Statistics; otherwise, when one of [-table], [-striptitles] and
    [-csv] is set, it is Matrix; otherwise, [-notitles] being unset, it
    is Mapping.  With [-stats] and a matrix-forcing flag together the
    mode is Statistics. *)
Theorem selectMode_priority :
  (asJson fl || asGo fl || asCSV fl = false -> selectMode fl = Stats) /\
  (statsMode fl = true -> selectMode fl = Stats) /\
  (asJson fl || asGo fl || asCSV fl = true -> statsMode fl = false ->
   tableMode fl || stripColNames fl || asCSV fl = true ->
   selectMode fl = Matrix) /\
  (asJson fl || asGo fl || asCSV fl = true -> statsMode fl = false ->
   tableMode fl || stripColNames fl || asCSV fl = false ->
   noColNames fl = false ->
   selectMode fl = Map).
Proof.
  unfold selectMode.
  destruct (asJson fl), (asGo fl), (asCSV fl), (statsMode fl), (tableMode fl),
    (stripColNames fl); simpl; repeat split; intros; congruence.
Qed.

(** ** The shape builder *)

(** C5.  A column worked on in Mapping mode: with exactly one cell, the
    Mapping Table of its sheet gets that cell as a key of the empty
    sequence; with two cells or more, it gets the cell at index 0 as the
    key of the cells after it, in their order.  The Matrix Table is
    untouched. *)
Theorem mapping_column sheet col s t :
  bookTab s !! sheet = Some t ->
  (forall title, col = [title] ->
     exists s',
       colBody Map sheet col s = Next tt s' /\
       bookTab s' = <[sheet := <[title := []]> t]> (bookTab s) /\
       bookMat s' = bookMat s) /\
  (forall title v values, col = title :: v :: values ->
     exists s',
       colBody Map sheet col s = Next tt s' /\
       bookTab s' = <[sheet := <[title := v :: values]> t]> (bookTab s) /\
       bookMat s' = bookMat s).
Proof.
  intros Ht. split.
  - intros title ->. eexists. split; [exact (colBody_Map_cons _ _ _ _ _ Ht)|].
    fields. now split.
  - intros title v values ->. eexists. split; [exact (colBody_Map_cons _ _ _ _ _ Ht)|].
    fields. now split.
Qed.

(** C10.  In a Mapping mode run whose columns all have a cell, when two
    columns of a sheet in scope have the same first cell, no later column
    of the sheet having it, the run ends with status 0 and nothing but
    the line of counts on the diagnostic stream, and the Mapping Table
    of the sheet that is written maps that cell to the data cells of the
    later column. *)
Theorem duplicate_title_replaced sheet title pre values1 mid values2 post :
  selectMode fl = Map ->
  Forall (fun p : string * Column => snd p <> []) (processed fl xf) ->
  sheet ∈ scope fl (GetSheetList xf) ->
  colsOf xf sheet = pre ++ (title :: values1) :: mid ++ (title :: values2) :: post ->
  Forall (fun col : Column => head col <> Some title) post ->
  exists bt t,
    main = mkOutcome 0 [infoLine] (if asJson fl then [JsonTab bt] else [GoTab bt]) true /\
    bt !! sheet = Some t /\ t !! title = Some values2.
Proof.
  intros Hmode Hfirst%firstEmpty_none Hin Hcols Hpost.
  destruct main_spec as (o & Ho & Hmain).
  rewrite Ho in Hmain by (rewrite Hmode; discriminate).
  rewrite Hmode in Hmain.
  destruct (decide (Map = Map)) as [_|Hx]; [|congruence].
  rewrite Hfirst in Hmain.
  destruct (scope fl (GetSheetList xf)) as [|sh0 sc] eqn:Hsc;
    [now apply elem_of_nil in Hin|].
  exists (bookTabOf Map xf (sh0 :: sc) ∅), (tabOf Map ∅ (colsOf xf sheet)).
  split; [|split].
  - rewrite Hmain. f_equal. simpl. unfold emitted.
    destruct (selectMode_Map_output Hmode) as [Hcsv [Hj|[Hj Hg]]].
    + now rewrite Hj.
    + now rewrite Hj, Hg.
  - now apply bookTabOf_lookup.
  - rewrite Hcols. simpl tabOf.
    replace (pre ++ (title :: values1) :: mid ++ (title :: values2) :: post)
      with ((pre ++ (title :: values1) :: mid) ++ (title :: values2) :: post)
      by now rewrite <- app_assoc.
    now apply foldl_addCol_last.
Qed.

(** ** Transposition *)

(** With [-notitles] unset, which turns the skip of line 198 off, the
    transposition of [C] columns raises no error and gives as many rows as
    the longest column has cells, each of [C] fields; the field at row [r]
    and column [c] is cell [r] of column [c] where that column has one,
    and the empty string elsewhere. *)
Theorem transpose_unstripped (records : list Column) :
  noColNames fl = false ->
  exists tab,
    transpose records = Some tab /\
    length tab = max_list (length <$> records) /\
    Forall (fun row => length row = length records) tab /\
    (forall c col r v,
       records !! c = Some col -> col !! r = Some v -> cellAt tab r c = Some v) /\
    (forall c col r,
       records !! c = Some col -> (length col <= r < length tab)%nat ->
       cellAt tab r c = Some EmptyString).
Proof.
  intros Hno. exists (gridOf false (maxRows records) records).
  pose proof (gridOf_rect false (maxRows records) records) as [Hlen Hrows].
  split; [rewrite transpose_gridOf; now rewrite Hno|].
  split; [now rewrite Hlen, maxRows_max|].
  split; [exact Hrows|]. split.
  - intros c col r v Hc Hr.
    assert (Hlt : (r < maxRows records)%nat).
    { pose proof (maxRows_bound records) as Hb. rewrite Forall_forall in Hb.
      specialize (Hb col ltac:(apply list_elem_of_lookup; eauto)).
      apply lookup_lt_Some in Hr. lia. }
    rewrite (gridOf_cell _ _ _ _ _ col Hlt Hc). cbn [andb]. now rewrite Hr.
  - intros c col r Hc [Hge Hlt]. rewrite Hlen in Hlt.
    rewrite (gridOf_cell _ _ _ _ _ col Hlt Hc). cbn [andb].
    now rewrite (lookup_ge_None_2 col r Hge).
Qed.

(** ** Errors and diagnostics *)

(** Let the columns of a run hold a column without cells, in sheet
    [sheet], after [pre] columns that all have one.  In Mapping mode the
    run exits with status 1; the diagnostic stream holds one line, with
    the number of columns worked on before that one and the name of its
    sheet, and nothing was written to the primary output.  In the other
    modes the run exits with status 0 and the diagnostic stream holds the
    line of counts only. *)
Theorem empty_column_fatal pre sheet post :
  processed fl xf = pre ++ (sheet, []) :: post ->
  Forall (fun p : string * Column => snd p <> []) pre ->
  Z.of_nat (length pre) < 2 ^ 63 ->
  (selectMode fl = Map ->
   main = mkOutcome 1 [NoTitleOrValues (Z.of_nat (length pre)) sheet] [] false) /\
  (selectMode fl <> Map ->
   status main = 0 /\ diagnostics main = [infoLine]).
Proof.
  intros Hproc Hpre Hsmall.
  destruct main_spec as (o & Ho & Hmain).
  split; intros Hmode.
  - destruct (decide (selectMode fl = Map)) as [_|Hx]; [|congruence].
    rewrite Hproc, (firstEmpty_at _ _ _ Hpre) in Hmain.
    rewrite Hmain, wrap_small by lia. reflexivity.
  - destruct (decide (selectMode fl = Map)) as [Hx|_]; [congruence|].
    unfold processed in Hproc.
    destruct (scope fl (GetSheetList xf)) as [|sh0 sc].
    + now destruct pre.
    + now rewrite Hmain.
Qed.

(** C8.  When a sheet is asked for by name and the workbook has no sheet
    of that name, the run goes through the sheet loop without working on
    any sheet, writes the line of counts and then the line naming the
    requested sheet on the diagnostic stream, and exits with status 1
    without anything written to the primary output. *)
Theorem sheet_not_found :
  useSheet fl <> EmptyString ->
  useSheet fl ∉ GetSheetList xf ->
  sheetLoop (selectMode fl) (GetSheetList xf) init = Next tt init /\
  main = mkOutcome 1 [InfoLine 0 0 0 0; SheetNotFound (useSheet fl)] [] false.
Proof.
  intros Hne Hnin.
  pose proof (scope_missing _ Hne Hnin) as Hsc.
  split; [now apply sheetLoop_none|].
  destruct main_spec as (o & Ho & Hmain).
  unfold processed in Hmain. rewrite Hsc in Hmain.
  now destruct (decide (selectMode fl = Map)).
Qed.

(** C9.  A run that exits with status 0, in whatever mode, leaves exactly
    one line on the diagnostic stream: the number of sheets worked on,
    the number of their columns, the number of cells of these columns,
    and the number of cells of the last of these columns (0 when there
    is none), these numbers fitting a machine integer. *)
Theorem info_line_counts :
  status main = 0 ->
  len (scope fl (GetSheetList xf)) < 2 ^ 63 ->
  len (colsIn xf (scope fl (GetSheetList xf))) < 2 ^ 63 ->
  Z.of_nat (cellCount (colsIn xf (scope fl (GetSheetList xf)))) < 2 ^ 63 ->
  diagnostics main
  = [InfoLine (len (scope fl (GetSheetList xf)))
       (len (colsIn xf (scope fl (GetSheetList xf))))
       (Z.of_nat (cellCount (colsIn xf (scope fl (GetSheetList xf)))))
       (match last (colsIn xf (scope fl (GetSheetList xf))) with
        | Some col => len col
        | None => 0
        end)].
Proof.
  intros Hok Hs Hc Hn.
  destruct main_spec as (o & Ho & Hmain).
  rewrite Hmain in Hok |- *. clear Hmain.
  destruct (if decide (selectMode fl = Map) then firstEmpty (processed fl xf) else None)
    as [[k sh]|]; [discriminate|].
  destruct (scope fl (GetSheetList xf)) as [|sh0 sc] eqn:Hsc; [discriminate|].
  fields. unfold infoLine. rewrite Hsc.
  unfold len in *. rewrite !wrap_small by lia. reflexivity.
Qed.

(** X5.  Without [-sheet], [-stats], [-json] and [-go], a [-csv] run
    exits with status 0 and writes one grid, the transposition of the
    columns of the first sheet of the workbook, whether or not [-all] had
    the other sheets worked on too. *)
Lemma csv_default_sheet defaultSheet sheets :
  GetSheetList xf = defaultSheet :: sheets ->
  useSheet fl = EmptyString -> statsMode fl = false ->
  asJson fl = false -> asGo fl = false -> asCSV fl = true ->
  main
  = mkOutcome 0 [infoLine]
      [CsvRecords (gridOf (noColNames fl) (maxRows (colsOf xf defaultSheet))
                     (colsOf xf defaultSheet))]
      true.
Proof.
  intros Hsheets Huse Hstats Hjson Hgo Hcsv.
  assert (Hmode : selectMode fl = Matrix).
  { unfold selectMode. rewrite Hstats, Hjson, Hgo, Hcsv.
    now destruct (tableMode fl), (stripColNames fl). }
  destruct main_spec as (o & Ho & Hmain).
  rewrite Ho in Hmain by (rewrite Hmode; discriminate).
  rewrite Hmode in Hmain.
  destruct (decide (Matrix = Map)) as [Hx|_]; [discriminate|].
  assert (Hin : defaultSheet ∈ scope fl (GetSheetList xf)).
  { rewrite Hsheets. simpl. rewrite Huse.
    rewrite bool_decide_eq_true_2 by reflexivity. apply list_elem_of_here. }
  destruct (scope fl (GetSheetList xf)) as [|sh0 sc] eqn:Hsc;
    [now apply elem_of_nil in Hin|].
  rewrite Hmain, Hsheets. unfold emitted. rewrite Hjson, Hgo, Hcsv.
  cbn [head default app]. rewrite (bookMatOf_lookup _ _ _ _ Hin). reflexivity.
Qed.

(** ** Further properties of the run *)

(** X1.  No run ends in a run-time panic: [sheets[0]] is read only after
    a sheet was found, every [tab[ri][ci]] written lies inside the grid,
    and the map written on line 117 or 120 was made on line 96. *)
Theorem main_never_panics :
  status main <> 2 /\ RuntimePanic ∉ diagnostics main.
Proof.
  destruct main_spec as (o & _ & Hmain). rewrite Hmain.
  destruct (if decide (selectMode fl = Map) then firstEmpty (processed fl xf) else None)
    as [[k sh]|].
  - fields. split; [discriminate|].
    intros Hin. apply list_elem_of_singleton in Hin. discriminate.
  - destruct (scope fl (GetSheetList xf)) as [|sh0 sc]; fields.
    + split; [discriminate|]. intros Hin.
      apply elem_of_cons in Hin as [Hin|Hin]; [discriminate|].
      apply list_elem_of_singleton in Hin. discriminate.
    + split; [discriminate|]. intros Hin.
      apply list_elem_of_singleton in Hin. discriminate.
Qed.

(** X2.  A run either exits with status 0 after the deferred flush, or
    exits with status 1 having handed nothing to the primary output and
    without flushing it. *)
Theorem failed_run_writes_nothing :
  (status main = 0 /\ flushed main = true) \/
  (status main = 1 /\ written main = [] /\ flushed main = false).
Proof.
  destruct main_spec as (o & _ & Hmain). rewrite Hmain.
  destruct (if decide (selectMode fl = Map) then firstEmpty (processed fl xf) else None)
    as [[k sh]|]; [right; now fields|].
  destruct (scope fl (GetSheetList xf)) as [|sh0 sc]; [right|left]; now fields.
Qed.

Lemma foldl_insert_lookup_ne {V : Type} (f : string -> V) sc :
  forall (m : gmap string V) sheet,
    sheet ∉ sc ->
    foldl (fun m sh => <[sh := f sh]> m) m sc !! sheet = m !! sheet.
Proof.
  induction sc as [|x sc IH]; intros m sheet Hnin; [reflexivity|].
  apply not_elem_of_cons in Hnin as [Hne Hnin]. simpl.
  rewrite (IH _ _ Hnin). apply lookup_insert_ne. congruence.
Qed.

Lemma status_0_scope :
  status main = 0 ->
  scope fl (GetSheetList xf) <> [] /\
  (selectMode fl = Map -> firstEmpty (processed fl xf) = None).
Proof.
  intros Hok. destruct main_spec as (o & _ & Hmain). rewrite Hmain in Hok.
  destruct (decide (selectMode fl = Map)) as [Hmap|Hmap].
  - destruct (firstEmpty (processed fl xf)) as [[k sh]|]; [discriminate|].
    destruct (scope fl (GetSheetList xf)); [discriminate|]. now split.
  - destruct (scope fl (GetSheetList xf)); [discriminate|]. split; [discriminate|].
    intros Hx. congruence.
Qed.

(** X3.  A Matrix mode run with [-json] or [-go] that exits with status
    0 writes one item, the per-sheet collection of Matrix Tables: it has
    an entry for each sheet worked on and for no other, and the entry of
    a sheet is the list of its columns as the backend gave them, first
    cells included, in their order. *)
Theorem matrix_tables :
  selectMode fl = Matrix ->
  asJson fl = true \/ asGo fl = true ->
  status main = 0 ->
  exists bm,
    written main = [if asJson fl then JsonMat bm else GoMat bm] /\
    forall sheet,
      bm !! sheet
      = if decide (sheet ∈ scope fl (GetSheetList xf))
        then Some (colsOf xf sheet) else None.
Proof.
  intros Hmode Hfmt Hok.
  destruct (status_0_scope Hok) as [Hsc _].
  destruct main_spec as (o & Ho & Hmain).
  rewrite Ho in Hmain by (rewrite Hmode; discriminate).
  rewrite Hmode in Hmain.
  destruct (decide (Matrix = Map)) as [Hx|_]; [discriminate|].
  exists (bookMatOf Matrix xf (scope fl (GetSheetList xf)) ∅). split.
  - rewrite Hmain.
    destruct (scope fl (GetSheetList xf)) as [|sh0 sc]; [congruence|].
    fields. unfold emitted.
    destruct (asJson fl); [reflexivity|].
    destruct Hfmt as [Hx|Hgo]; [discriminate|]. now rewrite Hgo.
  - intros sheet. destruct (decide (sheet ∈ scope fl (GetSheetList xf))) as [Hin|Hnin].
    + now rewrite (bookMatOf_lookup _ _ _ _ Hin).
    + unfold bookMatOf.
      rewrite (foldl_insert_lookup_ne (fun sh => matOf Matrix [] (colsOf xf sh)) _ _ _ Hnin).
      apply lookup_empty.
Qed.

Lemma foldl_addCol_from cols : forall (t : gmap string (list string)) title values,
  foldl addCol t cols !! title = Some values ->
  t !! title = Some values \/ (title :: values) ∈ cols.
Proof.
  induction cols as [|col cols IH]; intros t title values Hl; [now left|].
  simpl in Hl. apply IH in Hl as [Hl|Hl]; [|right; now apply list_elem_of_further].
  destruct col as [|h tl]; [now left|]. simpl in Hl.
  destruct (decide (h = title)) as [->|Hne].
  - rewrite lookup_insert_eq in Hl. injection Hl as ->. right. apply list_elem_of_here.
  - rewrite lookup_insert_ne in Hl by exact Hne. now left.
Qed.

Lemma foldl_addCol_key cols : forall (t : gmap string (list string)) title values,
  (title :: values) ∈ cols -> is_Some (foldl addCol t cols !! title).
Proof.
  induction cols as [|col cols IH] using rev_ind; intros t title values Hin.
  - now apply elem_of_nil in Hin.
  - rewrite foldl_app. simpl. apply elem_of_app in Hin as [Hin|Hin].
    + destruct col as [|h tl]; simpl; [now apply (IH _ _ values)|].
      destruct (decide (h = title)) as [->|Hne].
      * rewrite lookup_insert_eq. now eexists.
      * rewrite lookup_insert_ne by exact Hne. now apply (IH _ _ values).
    + apply list_elem_of_singleton in Hin. subst col. simpl.
      rewrite lookup_insert_eq. now eexists.
Qed.

(** X4.  A Mapping mode run that exits with status 0 writes one item, the
    per-sheet collection of Mapping Tables: it has an entry for each sheet
    worked on and for no other; the keys of the table of a sheet are the
    first cells of its columns, and the sequence under a key is the cells
    after the first of a column of the sheet with that first cell. *)
Theorem mapping_tables :
  selectMode fl = Map ->
  status main = 0 ->
  exists bt,
    written main = [if asJson fl then JsonTab bt else GoTab bt] /\
    (forall sheet, sheet ∉ scope fl (GetSheetList xf) -> bt !! sheet = None) /\
    (forall sheet, sheet ∈ scope fl (GetSheetList xf) ->
       exists t,
         bt !! sheet = Some t /\
         (forall title values,
            t !! title = Some values -> (title :: values) ∈ colsOf xf sheet) /\
         (forall title values,
            (title :: values) ∈ colsOf xf sheet -> is_Some (t !! title))).
Proof.
  intros Hmode Hok.
  destruct (status_0_scope Hok) as [Hsc Hfirst]. specialize (Hfirst Hmode).
  destruct main_spec as (o & Ho & Hmain).
  rewrite Ho in Hmain by (rewrite Hmode; discriminate).
  rewrite Hmode in Hmain.
  destruct (decide (Map = Map)) as [_|Hx]; [|congruence].
  rewrite Hfirst in Hmain.
  exists (bookTabOf Map xf (scope fl (GetSheetList xf)) ∅). split; [|split].
  - rewrite Hmain.
    destruct (scope fl (GetSheetList xf)) as [|sh0 sc]; [congruence|].
    fields. unfold emitted.
    destruct (selectMode_Map_output Hmode) as [Hcsv [Hj|[Hj Hg]]].
    + now rewrite Hj.
    + now rewrite Hj, Hg.
  - intros sheet Hnin. unfold bookTabOf.
    rewrite (foldl_insert_lookup_ne (fun sh => tabOf Map ∅ (colsOf xf sh)) _ _ _ Hnin).
    apply lookup_empty.
  - intros sheet Hin. exists (tabOf Map ∅ (colsOf xf sheet)).
    split; [now apply bookTabOf_lookup|]. simpl tabOf. split.
    + intros title values Hl.
      apply foldl_addCol_from in Hl as [Hl|Hl]; [|exact Hl].
      now rewrite lookup_empty in Hl.
    + intros title values Hcol. now apply (foldl_addCol_key _ _ _ values).
Qed.

(** ** The statistics reporter *)

(** After its first cell the cell loop only counts. *)
Lemma cells_after_first mode col cells : forall i s,
  range (S i) cells (cellBody mode col) s
  = Next tt (set_nRows (Nat.iter (length cells) incr (nRows s)) s).
Proof.
  induction cells as [|cell cells IH]; intros i s.
  - simpl. unfold skip, mret, M_ret. f_equal. now destruct s.
  - simpl range. unfold mbind at 1, M_bind at 1.
    assert (Hbody : cellBody mode col (S i) cell s
                    = Next tt (set_nRows (incr (nRows s)) s)).
    { unfold cellBody, mbind, M_bind. cbn [Nat.eqb].
      now rewrite andb_false_r. }
    rewrite Hbody, IH. destruct s; unfold set_nRows; simpl.
    now rewrite <- Nat.iter_succ_r.
Qed.

Lemma colBody_Stats sheet col s :
  colBody Stats sheet col s
  = Next tt (mkState (bookTab s) (bookMat s) (nSheets s)
               (Nat.iter (length col) incr (nRows s)) (incr (nCols s))
               (sheetFound s) (len col)
               (out s ++ columnLine TrimSpace fl (wrap (incr (nCols s) - 1)) col)
               (err s)).
Proof.
  unfold colBody, mbind, M_bind, modify. simpl shape. unfold skip at 1, mret, M_ret.
  destruct col as [|title rest].
  - simpl. unfold skip, mret, M_ret. f_equal. destruct s; simpl. now rewrite app_nil_r.
  - simpl range. unfold mbind at 1, M_bind at 1. unfold cellBody at 1.
    unfold mbind, M_bind. cbn [Nat.eqb]. rewrite andb_true_r.
    unfold columnLine.
    destruct (negb (noColNames fl)
              && (0 <? Z.of_nat (String.length (TrimSpace title)))).
    + destruct (decide (Stats = Stats)) as [_|Hx]; [|congruence].
      unfold get, write, modify. rewrite cells_after_first.
      destruct s; unfold set_nRows, set_out, set_rowSize, set_nCols; simpl.
      now rewrite <- Nat.iter_succ_r.
    + unfold skip, mret, M_ret, modify. rewrite cells_after_first.
      destruct s; unfold set_nRows, set_out, set_rowSize, set_nCols; simpl.
      now rewrite <- Nat.iter_succ_r, app_nil_r.
Qed.

Lemma colLoop_Stats sheet cols : forall k s,
  nCols s = Nat.iter k incr 0 ->
  exists s',
    colLoop Stats sheet cols s = Next tt s' /\
    out s' = out s ++ columnLines TrimSpace fl k cols /\
    nCols s' = Nat.iter (k + length cols) incr 0.
Proof.
  induction cols as [|col cols IH]; intros k s Hn.
  - exists s. split; [reflexivity|]. simpl. now rewrite app_nil_r, Nat.add_0_r.
  - simpl colLoop. unfold mbind, M_bind. rewrite colBody_Stats.
    match goal with
    | |- context [colLoop Stats sheet cols ?s1] =>
        destruct (IH (S k) s1) as (s' & Hrun & Hout & Hn')
    end; [fields; now rewrite Hn|].
    exists s'. split; [exact Hrun|]. rewrite Hout, Hn'. fields. split.
    + simpl columnLines. rewrite <- app_assoc. do 2 f_equal.
      rewrite Hn. change (incr (Nat.iter k incr 0)) with (Nat.iter (S k) incr 0).
      now rewrite wrap_pred_iter.
    + f_equal. simpl. lia.
Qed.

Lemma columnLines_app k l1 l2 :
  columnLines TrimSpace fl k (l1 ++ l2)
  = columnLines TrimSpace fl k l1 ++ columnLines TrimSpace fl (k + length l1) l2.
Proof.
  revert k. induction l1 as [|col l1 IH]; intros k; simpl.
  - now rewrite Nat.add_0_r.
  - rewrite IH, <- app_assoc. do 3 f_equal. lia.
Qed.

Lemma sheetLoop_Stats : forall sheets k s,
  Forall (fun sheet => is_Some (Cols xf sheet)) sheets ->
  nCols s = Nat.iter k incr 0 ->
  exists s',
    sheetLoop Stats sheets s = Next tt s' /\
    out s' = out s ++ columnLines TrimSpace fl k (colsIn xf (scope fl sheets)).
Proof.
  induction sheets as [|sheet sheets IH]; intros k s Hall Hn.
  - exists s. split; [reflexivity|]. simpl. now rewrite app_nil_r.
  - apply Forall_cons in Hall as [[cols Hcols] Hall].
    simpl sheetLoop. simpl scope.
    destruct (negb (bool_decide (useSheet fl = EmptyString))
              && negb (bool_decide (sheet = useSheet fl))); [now apply IH|].
    unfold mbind at 1, M_bind at 1. rewrite (sheetBody_run _ _ _ _ Hcols).
    assert (HcolsOf : colsOf xf sheet = cols) by (unfold colsOf; now rewrite Hcols).
    match goal with
    | |- context [colLoop Stats sheet cols ?s0] =>
        destruct (colLoop_Stats sheet cols k s0) as (s1 & -> & Hout1 & Hn1)
    end; [exact Hn|].
    cbn [out] in Hout1. rewrite colsIn_cons, HcolsOf, columnLines_app.
    destruct (negb (allSheets fl)).
    + exists s1. split; [reflexivity|]. rewrite Hout1. unfold colsIn. simpl.
      now rewrite app_nil_r.
    + destruct (IH (k + length cols)%nat s1 Hall Hn1) as (s' & Hrun & Hout).
      exists s'. split; [exact Hrun|]. now rewrite Hout, Hout1, <- app_assoc.
Qed.

(** X6.  A statistics mode run that exits with status 0 writes, for each
    column worked on that has a non-blank first cell, in the order of the
    columns, one line with that cell, the number of the column in the run
    and the number of its cells, unless [-notitles] is set; no table
    follows, but for [-csv] without [-json] and [-go], which adds a grid
    without any row. *)
Theorem statistics_lines :
  selectMode fl = Stats ->
  status main = 0 ->
  written main
  = columnLines TrimSpace fl 0 (colsIn xf (scope fl (GetSheetList xf)))
    ++ (if asJson fl || asGo fl then []
        else if asCSV fl then [CsvRecords []] else []).
Proof.
  intros Hmode Hok.
  destruct (status_0_scope Hok) as [Hsc _].
  destruct (sheetLoop_spec Stats (GetSheetList xf) init Cols_GetSheetList)
    as (o & _ & Hspec).
  destruct (decide (Stats = Map)) as [Hx|_]; [discriminate|].
  destruct (sheetLoop_Stats (GetSheetList xf) 0 init Cols_GetSheetList eq_refl)
    as (s' & Hrun & Hout).
  rewrite Hspec in Hrun. injection Hrun as <-. unfold init in Hout.
  cbn [out] in Hout. rewrite !app_nil_l in Hout. subst o.
  unfold main, mainM. rewrite Hmode.
  unfold mbind at 1, M_bind at 1. rewrite Hspec.
  unfold mbind, M_bind, get, eprintln, modify, init. fields.
  destruct (scope fl (GetSheetList xf)) as [|sh0 sc] eqn:Hscope; [congruence|].
  rewrite bool_decide_eq_false_2 by discriminate.
  change (negb (false || negb false)) with false. cbv iota.
  unfold skip at 1, mret, M_ret. cbv beta.
  destruct (GetSheetList xf) as [|defaultSheet sheets] eqn:Hsheets; [discriminate|].
  rewrite emit_run. unfold set_err, set_out. fields.
  rewrite app_nil_l. f_equal. unfold emitted.
  destruct (asJson fl); [reflexivity|]. destruct (asGo fl); [reflexivity|].
  destruct (asCSV fl); [|reflexivity]. simpl orb. cbv iota.
  assert (Hrec : default [] (bookMatOf Stats xf (sh0 :: sc) ∅ !! defaultSheet) = []).
  { destruct (decide (defaultSheet ∈ sh0 :: sc)) as [Hin|Hnin].
    - now rewrite (bookMatOf_lookup _ _ _ _ Hin).
    - unfold bookMatOf.
      rewrite (foldl_insert_lookup_ne (fun sh => matOf Stats [] (colsOf xf sh)) _ _ _ Hnin).
      now rewrite lookup_empty. }
  cbv zeta. rewrite Hrec. reflexivity.
Qed.

Lemma columnLines_notitles k cols :
  noColNames fl = true -> columnLines TrimSpace fl k cols = [].
Proof.
  intros Hno. revert k. induction cols as [|col cols IH]; intros k; [reflexivity|].
  simpl. rewrite IH, app_nil_r. unfold columnLine. rewrite Hno.
  now destruct col.
Qed.

(** X7.  With [-notitles], a statistics mode run that exits with status 0
    writes no line about any column. *)
Theorem statistics_notitles_silent :
  selectMode fl = Stats ->
  noColNames fl = true ->
  status main = 0 ->
  forall title coln rows, ColumnName title coln rows ∉ written main.
Proof.
  intros Hmode Hno Hok title coln rows.
  rewrite (statistics_lines Hmode Hok), (columnLines_notitles _ _ Hno), app_nil_l.
  destruct (asJson fl || asGo fl); [apply not_elem_of_nil|].
  destruct (asCSV fl); [|apply not_elem_of_nil].
  intros Hin. apply list_elem_of_singleton in Hin. discriminate.
Qed.

(** ** More on the transposition *)

Lemma max_list_const (l : list nat) R :
  l <> [] -> Forall (fun n => n = R) l -> max_list l = R.
Proof.
  induction l as [|n l IH]; intros Hne Hall; [congruence|].
  apply Forall_cons in Hall as [-> Hall]. simpl.
  destruct l as [|m l]; [simpl; lia|].
  rewrite IH by (congruence || assumption). lia.
Qed.

Lemma gridOf_row b R records r :
  (r < R)%nat ->
  gridOf b R records !! r
  = Some ((fun col : Column =>
             if b && (r =? 0)%nat then EmptyString else default EmptyString (col !! r))
            <$> records).
Proof.
  intros Hr. unfold gridOf. now rewrite list_lookup_fmap, lookup_seq_lt by exact Hr.
Qed.

(** X8.  Without the skip of line 198, transposing columns that all have
    the same number of cells, at least one, and transposing the grid
    again gives the columns back. *)
Theorem transpose_twice R (records : list Column) :
  noColNames fl = false ->
  Forall (fun col : Column => length col = R) records ->
  (0 < R)%nat ->
  exists tab, transpose records = Some tab /\ transpose tab = Some records.
Proof.
  clear TrimSpace xf.
  intros Hno Hall HR. rewrite transpose_gridOf, Hno.
  eexists. split; [reflexivity|]. rewrite transpose_gridOf, Hno. f_equal.
  destruct records as [|col0 rest] eqn:Hrec; [reflexivity|]. rewrite <- Hrec in *.
  assert (Hne : records <> []) by (rewrite Hrec; discriminate). clear Hrec col0 rest.
  assert (HmaxR : maxRows records = R).
  { rewrite maxRows_max. apply max_list_const.
    - intros Hnil. apply fmap_nil_inv in Hnil. congruence.
    - apply Forall_fmap. exact Hall. }
  rewrite HmaxR.
  destruct (gridOf_rect false R records) as [Hlen Hrows].
  assert (HmaxC : maxRows (gridOf false R records) = length records).
  { rewrite maxRows_max. apply max_list_const.
    - intros Hnil. apply fmap_nil_inv in Hnil.
      rewrite Hnil in Hlen. simpl in Hlen. lia.
    - apply Forall_fmap. exact Hrows. }
  rewrite HmaxC. apply list_eq. intros c.
  destruct (decide (c < length records)%nat) as [Hc|Hc].
  - rewrite (gridOf_row _ _ _ _ Hc). cbn [andb].
    destruct (lookup_lt_is_Some_2 records c Hc) as [col Hcol]. rewrite Hcol. f_equal.
    assert (HlenC : length col = R).
    { rewrite Forall_forall in Hall. apply Hall, list_elem_of_lookup. eauto. }
    apply list_eq. intros r. rewrite list_lookup_fmap.
    destruct (decide (r < R)%nat) as [Hr|Hr].
    + rewrite (gridOf_row _ _ _ _ Hr). cbn [andb]. simpl.
      rewrite list_lookup_fmap, Hcol. simpl.
      destruct (lookup_lt_is_Some_2 col r ltac:(lia)) as [v Hv]. now rewrite Hv.
    + rewrite (lookup_ge_None_2 (gridOf false R records) r) by lia.
      rewrite (lookup_ge_None_2 col r) by lia. reflexivity.
  - rewrite (lookup_ge_None_2 records c) by lia.
    apply lookup_ge_None_2. unfold gridOf. rewrite length_fmap, length_seq. lia.
Qed.

(** X9.  With [-notitles] the transposition raises no error either and
    gives a grid of the same size, as many rows as the longest column has
    cells, in which every field of row 0 is the empty string; the fields
    of the other rows are the cells of the columns, and the empty string
    below a short column. *)
Theorem transpose_notitles (records : list Column) :
  noColNames fl = true ->
  exists tab,
    transpose records = Some tab /\
    length tab = max_list (length <$> records) /\
    Forall (fun row => length row = length records) tab /\
    (forall c, (c < length records)%nat -> (0 < length tab)%nat ->
       cellAt tab 0 c = Some EmptyString) /\
    (forall c col r v,
       records !! c = Some col -> col !! r = Some v -> r <> 0%nat ->
       cellAt tab r c = Some v) /\
    (forall c col r,
       records !! c = Some col -> (length col <= r < length tab)%nat ->
       cellAt tab r c = Some EmptyString).
Proof.
  clear TrimSpace xf.
  intros Hno. exists (gridOf true (maxRows records) records).
  pose proof (gridOf_rect true (maxRows records) records) as [Hlen Hrows].
  split; [rewrite transpose_gridOf; now rewrite Hno|].
  split; [now rewrite Hlen, maxRows_max|].
  split; [exact Hrows|]. split; [|split].
  - intros c Hc Hpos. rewrite Hlen in Hpos.
    destruct (lookup_lt_is_Some_2 records c Hc) as [col Hcol].
    now rewrite (gridOf_cell _ _ _ _ _ col Hpos Hcol).
  - intros c col r v Hc Hr Hr0.
    assert (Hlt : (r < maxRows records)%nat).
    { pose proof (maxRows_bound records) as Hb. rewrite Forall_forall in Hb.
      specialize (Hb col ltac:(apply list_elem_of_lookup; eauto)).
      apply lookup_lt_Some in Hr. lia. }
    rewrite (gridOf_cell _ _ _ _ _ col Hlt Hc). cbn [andb].
    rewrite (proj2 (Nat.eqb_neq r 0) Hr0). now rewrite Hr.
  - intros c col r Hc [Hge Hlt]. rewrite Hlen in Hlt.
    rewrite (gridOf_cell _ _ _ _ _ col Hlt Hc). cbn [andb].
    destruct (r =? 0)%nat; [reflexivity|].
    now rewrite (lookup_ge_None_2 col r Hge).
Qed.

(** ** The sheets worked on *)

Lemma scope_single sheets :
  allSheets fl = false ->
  scope fl sheets = [] \/
  exists sheet,
    scope fl sheets = [sheet] /\ sheet ∈ sheets /\
    (useSheet fl = EmptyString -> head sheets = Some sheet) /\
    (useSheet fl <> EmptyString -> sheet = useSheet fl).
Proof.
  clear TrimSpace xf.
  intros Hall. induction sheets as [|sheet sheets IH]; [now left|].
  simpl scope. rewrite Hall. simpl negb at 3.
  destruct (decide (useSheet fl = EmptyString)) as [Hu|Hu].
  - rewrite (bool_decide_eq_true_2 _ Hu). simpl. right. exists sheet.
    split; [reflexivity|]. split; [apply list_elem_of_here|].
    split; [reflexivity|congruence].
  - rewrite (bool_decide_eq_false_2 _ Hu). simpl.
    destruct (decide (sheet = useSheet fl)) as [Hs|Hs].
    + rewrite (bool_decide_eq_true_2 _ Hs). simpl. right. exists sheet.
      split; [reflexivity|]. split; [apply list_elem_of_here|].
      split; [congruence|intros _; exact Hs].
    + rewrite (bool_decide_eq_false_2 _ Hs). simpl.
      destruct IH as [IH|(sh & Hsc & Hin & _ & Hname)]; [now left|].
      right. exists sh. split; [exact Hsc|].
      split; [now apply list_elem_of_further|]. split; [congruence|exact Hname].
Qed.

(** X10.  Without [-all], a run that exits with status 0 has worked on
    exactly one sheet of the workbook: the one named by [-sheet], or the
    first one when no name is given; the line of counts reports one
    sheet and the columns and cells of that sheet only. *)
Theorem without_all_one_sheet :
  allSheets fl = false ->
  status main = 0 ->
  exists sheet,
    sheet ∈ GetSheetList xf /\
    (useSheet fl = EmptyString -> head (GetSheetList xf) = Some sheet) /\
    (useSheet fl <> EmptyString -> sheet = useSheet fl) /\
    diagnostics main
    = [InfoLine 1 (wrap (len (colsOf xf sheet)))
         (wrap (Z.of_nat (cellCount (colsOf xf sheet))))
         (lastLen (colsOf xf sheet) 0)].
Proof.
  intros Hall Hok.
  destruct (status_0_scope Hok) as [Hsc _].
  destruct (scope_single (GetSheetList xf) Hall)
    as [Hnil|(sheet & Hone & Hin & Hfirst & Hname)]; [congruence|].
  exists sheet. split; [exact Hin|]. split; [exact Hfirst|]. split; [exact Hname|].
  destruct main_spec as (o & _ & Hmain). rewrite Hmain in Hok |- *.
  destruct (if decide (selectMode fl = Map) then firstEmpty (processed fl xf) else None)
    as [[k sh]|]; [discriminate|].
  unfold infoLine. rewrite Hone. fields.
  rewrite colsIn_cons. unfold colsIn at 1 2 3. simpl columnsOf. simpl fmap.
  rewrite !app_nil_r. reflexivity.
Qed.

(** ** When a run fails *)

Lemma scope_nil_iff sheets :
  scope fl sheets = [] <->
  sheets = [] \/ (useSheet fl <> EmptyString /\ useSheet fl ∉ sheets).
Proof.
  clear TrimSpace xf.
  split.
  - induction sheets as [|sheet sheets IH]; intros Hsc; [now left|]. right.
    simpl in Hsc.
    destruct (bool_decide (useSheet fl = EmptyString)) eqn:Hu; [discriminate|].
    destruct (bool_decide (sheet = useSheet fl)) eqn:Hs; [discriminate|].
    simpl in Hsc. apply bool_decide_eq_false in Hu, Hs.
    split; [exact Hu|]. apply not_elem_of_cons. split; [congruence|].
    destruct (IH Hsc) as [->|[_ Hnin]]; [apply not_elem_of_nil|exact Hnin].
  - intros [->|[Hu Hnin]]; [reflexivity|]. now apply scope_missing.
Qed.

Lemma firstEmpty_is_Some l :
  is_Some (firstEmpty l) <-> Exists (fun p : string * Column => snd p = []) l.
Proof.
  clear TrimSpace fl xf.
  induction l as [|[sh col] l IH]; simpl.
  - split; [intros [x Hx]; discriminate|intros Hex; inversion Hex].
  - destruct col as [|c col].
    + split; [intros _; now apply Exists_cons_hd|intros _; now eexists].
    + split.
      * intros Hsome. apply Exists_cons_tl, IH.
        destruct (firstEmpty l) as [[k sh']|]; [now eexists|].
        destruct Hsome as [x Hx]. discriminate.
      * intros Hex. apply Exists_cons in Hex as [Hex|Hex]; [discriminate|].
        apply IH in Hex as [[k sh'] Hk]. rewrite Hk. now eexists.
Qed.

(** X11.  A run ends on the line that no sheet of the requested name was
    found, after the line of counts with zeros, with status 1 and without
    output, exactly when the workbook has no sheet at all or when
    [-sheet] names a sheet the workbook does not have. *)
Theorem sheet_not_found_iff :
  main = mkOutcome 1 [InfoLine 0 0 0 0; SheetNotFound (useSheet fl)] [] false
  <-> GetSheetList xf = [] \/
      (useSheet fl <> EmptyString /\ useSheet fl ∉ GetSheetList xf).
Proof.
  rewrite <- scope_nil_iff.
  destruct main_spec as (o & _ & Hmain). rewrite Hmain. unfold processed.
  split.
  - intros Heq.
    destruct (if decide (selectMode fl = Map)
              then firstEmpty (columnsOf xf (scope fl (GetSheetList xf))) else None)
      as [[k sh]|]; [discriminate|].
    now destruct (scope fl (GetSheetList xf)).
  - intros ->. now destruct (decide (selectMode fl = Map)).
Qed.

(** X12.  A run ends on the single line about a column without title or
    values, with status 1 and without output, exactly when the mode is
    Mapping and one of the columns of the sheets in scope has no cell. *)
Theorem empty_column_iff :
  (exists n sheet, main = mkOutcome 1 [NoTitleOrValues n sheet] [] false)
  <-> selectMode fl = Map /\
      Exists (fun p : string * Column => snd p = []) (processed fl xf).
Proof.
  rewrite <- firstEmpty_is_Some.
  destruct main_spec as (o & _ & Hmain). rewrite Hmain.
  destruct (decide (selectMode fl = Map)) as [Hmap|Hmap].
  - destruct (firstEmpty (processed fl xf)) as [[k sh]|].
    + split; [intros _; split; [exact Hmap|now eexists]|intros _; now eexists _, _].
    + split.
      * intros (n & sheet & Heq).
        now destruct (scope fl (GetSheetList xf)).
      * intros [_ [x Hx]]. discriminate.
  - split; [|intros [Hx _]; congruence].
    intros (n & sheet & Heq). now destruct (scope fl (GetSheetList xf)).
Qed.

(** ** The number of the column without cells *)

Lemma columnsOf_app sc1 sc2 :
  columnsOf xf (sc1 ++ sc2) = columnsOf xf sc1 ++ columnsOf xf sc2.
Proof. unfold columnsOf. apply flat_map_app. Qed.

(** C6, amended.  Let sheet [sheet] be worked on after the sheets of
    [sc1], whose columns all have a cell, and let its column of index [i]
    be its first column without cells.  In Mapping mode the run exits
    with status 1; the diagnostic stream holds one line, with the name of
    the sheet and the number [i] plus the number of columns of the sheets
    of [sc1] (the index [i] itself when the sheet is the first one worked
    on), and nothing was written to the primary output.  In the other
    modes the run exits with status 0 and the diagnostic stream holds the
    line of counts only. *)
Theorem empty_column_reported sc1 sheet sc2 (i : nat) :
  scope fl (GetSheetList xf) = sc1 ++ sheet :: sc2 ->
  Forall (fun p : string * Column => snd p <> []) (columnsOf xf sc1) ->
  colsOf xf sheet !! i = Some [] ->
  (forall j col, (j < i)%nat -> colsOf xf sheet !! j = Some col -> col <> []) ->
  Z.of_nat (length (colsIn xf sc1) + i) < 2 ^ 63 ->
  (selectMode fl = Map ->
   main = mkOutcome 1
            [NoTitleOrValues (Z.of_nat (length (colsIn xf sc1) + i)) sheet] [] false) /\
  (selectMode fl <> Map ->
   status main = 0 /\ diagnostics main = [infoLine]).
Proof.
  intros Hsc Hearlier Hi Hfirst Hsmall.
  pose proof (lookup_lt_Some _ _ _ Hi) as Hlt.
  assert (Hproc : processed fl xf
                  = (columnsOf xf sc1 ++ (pair sheet <$> take i (colsOf xf sheet)))
                    ++ (sheet, [])
                       :: ((pair sheet <$> drop (S i) (colsOf xf sheet))
                           ++ columnsOf xf sc2)).
  { unfold processed. rewrite Hsc, columnsOf_app, columnsOf_cons.
    rewrite <- (take_drop_middle (colsOf xf sheet) i [] Hi) at 1.
    rewrite fmap_app, fmap_cons, <- !app_assoc. reflexivity. }
  assert (Hpre : Forall (fun p : string * Column => snd p <> [])
                   (columnsOf xf sc1 ++ (pair sheet <$> take i (colsOf xf sheet)))).
  { apply Forall_app. split; [exact Hearlier|].
    apply Forall_fmap, Forall_lookup. intros j col Hj. simpl.
    apply lookup_take_Some in Hj as [Hj Hji]. exact (Hfirst j col Hji Hj). }
  assert (Hlen : length (columnsOf xf sc1 ++ (pair sheet <$> take i (colsOf xf sheet)))
                 = (length (colsIn xf sc1) + i)%nat).
  { rewrite length_app, length_fmap, length_take. unfold colsIn.
    rewrite length_fmap. lia. }
  rewrite <- Hlen in Hsmall |- *.
  exact (empty_column_fatal _ _ _ Hproc Hpre Hsmall).
Qed.

End Run.

(** ** The sample runs *)

(** C1.  [xl -striptitles -csv] on the sheet of columns Name, Alice, Bob
    and Age, 30, 25: the grid written has three rows, the first one made
    of the two column names. *)
Theorem striptitles_csv_keeps_titles :
  main trimSpaceASCII flagsStripCSV people
  = mkOutcome 0 [InfoLine 1 2 6 3]
      [CsvRecords [["Name"; "Age"]; ["Alice"; "30"]; ["Bob"; "25"]]] true
  /\ main trimSpaceASCII flagsStripCSV people = main trimSpaceASCII flagsCSV people.
Proof. split; vm_compute; reflexivity. Qed.

(** With [-notitles] the cells at index 0 are left out of the grid, which
    keeps its three rows. *)
Lemma notitles_csv_blanks_row_0 :
  written (main trimSpaceASCII flagsNoTitlesCSV people)
  = [CsvRecords [[EmptyString; EmptyString]; ["Alice"; "30"]; ["Bob"; "25"]]].
Proof. vm_compute. reflexivity. Qed.

(** The number of rows of the grid does not depend on the flags. *)
Lemma transpose_rows fl records tab :
  transpose fl records = Some tab -> length tab = maxRows records.
Proof.
  rewrite transpose_gridOf. intros [= <-].
  destruct (gridOf_rect (noColNames fl) (maxRows records) records) as [Hlen _].
  exact Hlen.
Qed.

(** C3.  [xl -sheet Sheet2 -csv] on a workbook of two sheets: the sheet
    worked on is Sheet2, and the grid written is empty, where
    [xl -sheet Sheet2 -table -json] writes the Matrix Table of Sheet2. *)
Theorem sheet2_csv_is_empty :
  scope flagsSheet2CSV (GetSheetList twoSheets) = ["Sheet2"]
  /\ processed flagsSheet2CSV twoSheets = [("Sheet2", ["x"; "y"])]
  /\ main trimSpaceASCII flagsSheet2CSV twoSheets
     = mkOutcome 0 [InfoLine 1 1 2 2] [CsvRecords []] true
  /\ written (main trimSpaceASCII flagsSheet2TableJson twoSheets)
     = [JsonMat {[ "Sheet2" := [["x"; "y"]] ]}].
Proof. repeat split; vm_compute; reflexivity. Qed.

(** C4.  [xl -notitles -json]: the mode is Mapping, and what is written
    is the Mapping Table of the sheet, keyed by the cells at index 0; the
    Matrix Table of the sheet stays empty. *)
Theorem notitles_json_is_mapping :
  noColNames flagsNoTitlesJson = true
  /\ statsMode flagsNoTitlesJson = false
  /\ selectMode flagsNoTitlesJson = Map
  /\ main trimSpaceASCII flagsNoTitlesJson people
     = mkOutcome 0 [InfoLine 1 2 6 3]
         [JsonTab {[ "Sheet1" := {[ "Name" := ["Alice"; "Bob"];
                                    "Age" := ["30"; "25"] ]} ]}]
         true.
Proof. repeat split; vm_compute; reflexivity. Qed.

(** C2, as stated, fails on [xl -table -stats -json]: a matrix-forcing
    flag and [-stats] are set, and the mode is Statistics. *)
Lemma table_stats_is_statistics :
  tableMode flagsTableStatsJson = true
  /\ statsMode flagsTableStatsJson = true
  /\ selectMode flagsTableStatsJson = Stats
  /\ selectMode flagsTableStatsJson <> Matrix.
Proof. repeat split; try reflexivity. discriminate. Qed.

Lemma selectMode_priority_witness :
  selectMode defaultFlags = Stats
  /\ selectMode flagsTableStatsJson = Stats
  /\ selectMode flagsStripCSV = Matrix
  /\ selectMode flagsJson = Map.
Proof.
  split; [|split; [|split]].
  - apply (proj1 (selectMode_priority defaultFlags)). reflexivity.
  - apply (proj1 (proj2 (selectMode_priority flagsTableStatsJson))). reflexivity.
  - apply (proj1 (proj2 (proj2 (selectMode_priority flagsStripCSV)))); reflexivity.
  - apply (proj2 (proj2 (proj2 (selectMode_priority flagsJson)))); reflexivity.
Defined.

Lemma mapping_column_witness :
  exists s',
    colBody trimSpaceASCII flagsJson Map "Sheet1" ["Name"; "Alice"; "Bob"]
      (set_bookTab {[ "Sheet1" := ∅ ]} init) = Next tt s'
    /\ bookTab s' = <[ "Sheet1" := <[ "Name" := ["Alice"; "Bob"] ]> ∅ ]> {[ "Sheet1" := ∅ ]}
    /\ bookMat s' = ∅.
Proof.
  assert (Ht : bookTab (set_bookTab {[ "Sheet1" := ∅ ]} init) !! "Sheet1"
               = Some (∅ : gmap string (list string))).
  { unfold set_bookTab. cbn [bookTab]. apply lookup_singleton_eq. }
  apply (proj2 (mapping_column trimSpaceASCII flagsJson "Sheet1" ["Name"; "Alice"; "Bob"]
                  (set_bookTab {[ "Sheet1" := ∅ ]} init) ∅ Ht)
           "Name" "Alice" ["Bob"]).
  reflexivity.
Defined.

Lemma empty_column_fatal_witness :
  main trimSpaceASCII flagsJson ragged
  = mkOutcome 1 [NoTitleOrValues 2 "Sheet1"] [] false
  /\ status (main trimSpaceASCII flagsTableJson ragged) = 0.
Proof.
  assert (Hpre : Forall (fun p : string * Column => snd p <> [])
                   [("Sheet1", ["Name"; "Alice"; "Bob"]); ("Sheet1", ["Age"])]).
  { repeat constructor; discriminate. }
  split.
  - apply (proj1 (empty_column_fatal trimSpaceASCII flagsJson ragged
                    [("Sheet1", ["Name"; "Alice"; "Bob"]); ("Sheet1", ["Age"])]
                    "Sheet1" [("Sheet1", ["Name"; "Carol"])]
                    ltac:(vm_compute; reflexivity) Hpre ltac:(vm_compute; reflexivity))).
    reflexivity.
  - apply (proj2 (empty_column_fatal trimSpaceASCII flagsTableJson ragged
                    [("Sheet1", ["Name"; "Alice"; "Bob"]); ("Sheet1", ["Age"])]
                    "Sheet1" [("Sheet1", ["Name"; "Carol"])]
                    ltac:(vm_compute; reflexivity) Hpre ltac:(vm_compute; reflexivity))).
    discriminate.
Defined.

Lemma transpose_unstripped_witness :
  exists tab,
    transpose flagsCSV [["Name"; "Alice"; "Bob"]; ["Age"]] = Some tab
    /\ length tab = 3%nat
    /\ Forall (fun row => length row = 2%nat) tab
    /\ cellAt tab 1 0 = Some "Alice"
    /\ cellAt tab 1 1 = Some EmptyString.
Proof.
  destruct (transpose_unstripped flagsCSV [["Name"; "Alice"; "Bob"]; ["Age"]]
              ltac:(reflexivity))
    as (tab & Hrun & Hlen & Hrows & Hcell & Hpad).
  exists tab. split; [exact Hrun|]. split; [exact Hlen|]. split; [exact Hrows|].
  split.
  - apply (Hcell 0%nat ["Name"; "Alice"; "Bob"] 1%nat "Alice"); reflexivity.
  - apply (Hpad 1%nat ["Age"] 1%nat); [reflexivity|]. rewrite Hlen. simpl. lia.
Defined.

Lemma sheet_not_found_witness :
  main trimSpaceASCII flagsMissingJson people
  = mkOutcome 1 [InfoLine 0 0 0 0; SheetNotFound "Missing"] [] false.
Proof.
  apply (sheet_not_found trimSpaceASCII flagsMissingJson people).
  - discriminate.
  - vm_compute. intros H. repeat (apply elem_of_cons in H as [H|H]; [discriminate|]).
    now apply elem_of_nil in H.
Defined.

Lemma info_line_counts_witness :
  diagnostics (main trimSpaceASCII flagsAllJson twoSheets) = [InfoLine 2 2 4 2].
Proof.
  apply (info_line_counts trimSpaceASCII flagsAllJson twoSheets);
    vm_compute; reflexivity.
Defined.

Lemma duplicate_title_replaced_witness :
  exists bt t,
    main trimSpaceASCII flagsJson
      [("Sheet1", [["Name"; "Alice"; "Bob"]; ["Age"]; ["Name"; "Carol"]])]
    = mkOutcome 0
        [infoLine flagsJson [("Sheet1", [["Name"; "Alice"; "Bob"]; ["Age"]; ["Name"; "Carol"]])]]
        [JsonTab bt] true
    /\ bt !! "Sheet1" = Some t /\ t !! "Name" = Some ["Carol"].
Proof.
  apply (duplicate_title_replaced trimSpaceASCII flagsJson
           [("Sheet1", [["Name"; "Alice"; "Bob"]; ["Age"]; ["Name"; "Carol"]])]
           "Sheet1" "Name" [] ["Alice"; "Bob"] [["Age"]] ["Carol"] []).
  - reflexivity.
  - vm_compute. repeat constructor; discriminate.
  - vm_compute. apply list_elem_of_here.
  - reflexivity.
  - constructor.
Defined.

(** ** What the flags do not change *)

(** X13.  Outside statistics mode a run does not depend on
    [strings.TrimSpace]: a first cell made of blanks is a key or a cell
    like any other. *)
Theorem tables_ignore_TrimSpace (T1 T2 : string -> string) fl xf :
  selectMode fl <> Stats -> main T1 fl xf = main T2 fl xf.
Proof.
  intros Hmode.
  destruct (main_spec T1 fl xf) as (o1 & Ho1 & ->).
  destruct (main_spec T2 fl xf) as (o2 & Ho2 & ->).
  now rewrite (Ho1 Hmode), (Ho2 Hmode).
Qed.

(** X14.  [-striptitles] is read by the mode selection only: setting or
    unsetting it in a way that leaves the mode as it is leaves the whole
    run as it is. *)
Theorem striptitles_only_selects_mode (T : string -> string) fl xf b :
  selectMode (withStripColNames b fl) = selectMode fl ->
  main T (withStripColNames b fl) xf = main T fl xf.
Proof.
  intros Hmode. unfold main, mainM. rewrite Hmode. reflexivity.
Qed.

(** ** Sample runs for the further properties *)

Lemma matrix_tables_witness :
  exists bm,
    written (main trimSpaceASCII flagsAllTableJson twoSheets) = [JsonMat bm]
    /\ bm !! "Sheet2" = Some [["x"; "y"]]
    /\ bm !! "Sheet3" = None.
Proof.
  destruct (matrix_tables trimSpaceASCII flagsAllTableJson twoSheets
              ltac:(reflexivity) (or_introl eq_refl) ltac:(vm_compute; reflexivity))
    as (bm & Hw & Hl).
  exists bm. split; [exact Hw|]. rewrite !Hl. split; vm_compute; reflexivity.
Defined.

Lemma mapping_tables_witness :
  exists bt t,
    written (main trimSpaceASCII flagsJson people) = [JsonTab bt]
    /\ bt !! "Sheet1" = Some t
    /\ is_Some (t !! "Age").
Proof.
  destruct (mapping_tables trimSpaceASCII flagsJson people
              ltac:(reflexivity) ltac:(vm_compute; reflexivity))
    as (bt & Hw & _ & Hin).
  destruct (Hin "Sheet1" ltac:(vm_compute; apply list_elem_of_here))
    as (t & Ht & _ & Hkey).
  exists bt, t. split; [exact Hw|]. split; [exact Ht|].
  apply (Hkey "Age" ["30"; "25"]). vm_compute. repeat constructor.
Defined.

Lemma csv_default_sheet_witness :
  main trimSpaceASCII flagsAllCSV twoSheets
  = mkOutcome 0 [infoLine flagsAllCSV twoSheets]
      [CsvRecords (gridOf false 2 [["a"; "b"]])] true.
Proof.
  apply (csv_default_sheet trimSpaceASCII flagsAllCSV twoSheets "Sheet1" ["Sheet2"]);
    reflexivity.
Defined.

Lemma statistics_lines_witness :
  written (main trimSpaceASCII defaultFlags blankTitle)
  = [ColumnName "Name" 0 2; ColumnName "City" 3 1].
Proof.
  rewrite (statistics_lines trimSpaceASCII defaultFlags blankTitle
             ltac:(reflexivity) ltac:(vm_compute; reflexivity)).
  vm_compute. reflexivity.
Defined.

Lemma statistics_notitles_silent_witness :
  ColumnName "Name" 0 2 ∉ written (main trimSpaceASCII flagsNoTitlesStatsJson blankTitle).
Proof.
  apply (statistics_notitles_silent trimSpaceASCII flagsNoTitlesStatsJson blankTitle);
    [reflexivity|reflexivity|vm_compute; reflexivity].
Defined.

Lemma transpose_twice_witness :
  exists tab,
    transpose flagsCSV [["a"; "b"]; ["c"; "d"]; ["e"; "f"]] = Some tab
    /\ transpose flagsCSV tab = Some [["a"; "b"]; ["c"; "d"]; ["e"; "f"]].
Proof.
  apply (transpose_twice flagsCSV 2%nat [["a"; "b"]; ["c"; "d"]; ["e"; "f"]]).
  - reflexivity.
  - repeat constructor.
  - lia.
Defined.

Lemma transpose_notitles_witness :
  exists tab,
    transpose flagsNoTitlesCSV [["Name"; "Alice"; "Bob"]; ["Age"]] = Some tab
    /\ cellAt tab 0 0 = Some EmptyString
    /\ cellAt tab 2 0 = Some "Bob".
Proof.
  destruct (transpose_notitles flagsNoTitlesCSV [["Name"; "Alice"; "Bob"]; ["Age"]]
              ltac:(reflexivity))
    as (tab & Hrun & Hlen & _ & Hrow0 & Hcell & _).
  exists tab. split; [exact Hrun|]. split.
  - apply Hrow0; [simpl; lia|rewrite Hlen; simpl; lia].
  - apply (Hcell 0%nat ["Name"; "Alice"; "Bob"] 2%nat "Bob"); [reflexivity|reflexivity|lia].
Defined.

Lemma without_all_one_sheet_witness :
  exists sheet,
    sheet ∈ GetSheetList twoSheets
    /\ (useSheet flagsSheet2TableJson = EmptyString ->
        head (GetSheetList twoSheets) = Some sheet)
    /\ (useSheet flagsSheet2TableJson <> EmptyString ->
        sheet = useSheet flagsSheet2TableJson)
    /\ diagnostics (main trimSpaceASCII flagsSheet2TableJson twoSheets)
       = [InfoLine 1 (wrap (len (colsOf twoSheets sheet)))
            (wrap (Z.of_nat (cellCount (colsOf twoSheets sheet))))
            (lastLen (colsOf twoSheets sheet) 0)].
Proof.
  apply (without_all_one_sheet trimSpaceASCII flagsSheet2TableJson twoSheets).
  - reflexivity.
  - vm_compute. reflexivity.
Defined.

Lemma tables_ignore_TrimSpace_witness :
  main trimSpaceASCII flagsJson blankTitle = main (fun s => s) flagsJson blankTitle.
Proof.
  apply (tables_ignore_TrimSpace trimSpaceASCII (fun s => s) flagsJson blankTitle).
  discriminate.
Defined.

Lemma striptitles_only_selects_mode_witness :
  main trimSpaceASCII (withStripColNames true flagsCSV) people
  = main trimSpaceASCII flagsCSV people.
Proof.
  apply (striptitles_only_selects_mode trimSpaceASCII flagsCSV people true).
  reflexivity.
Defined.

(** ** Runs over several sheets and under [-notitles] *)

(** C6, as stated, fails on [xl -all -json] when the first column of the
    second sheet has no cell: the line names Sheet2 with the number 2,
    where the column has index 0 in Sheet2, which has no column of
    index 2. *)
Lemma all_sheets_column_number :
  selectMode flagsAllJson = Map
  /\ main trimSpaceASCII flagsAllJson secondBad
     = mkOutcome 1 [NoTitleOrValues 2 "Sheet2"] [] false
  /\ colsOf secondBad "Sheet2" !! 0%nat = Some []
  /\ colsOf secondBad "Sheet2" !! 2%nat = None.
Proof. repeat split; vm_compute; reflexivity. Qed.

Lemma empty_column_reported_witness :
  main trimSpaceASCII flagsAllJson secondBad
  = mkOutcome 1 [NoTitleOrValues 2 "Sheet2"] [] false
  /\ main trimSpaceASCII flagsJson ragged
     = mkOutcome 1 [NoTitleOrValues 2 "Sheet1"] [] false
  /\ status (main trimSpaceASCII flagsAllTableJson secondBad) = 0.
Proof.
  assert (Hearlier : Forall (fun p : string * Column => snd p <> [])
                       (columnsOf secondBad ["Sheet1"])).
  { vm_compute. repeat constructor; discriminate. }
  assert (Hfirst0 : forall j (col : Column),
             (j < 0)%nat -> colsOf secondBad "Sheet2" !! j = Some col -> col <> [])
    by (intros j col Hj; lia).
  assert (Hfirst2 : forall j (col : Column),
             (j < 2)%nat -> colsOf ragged "Sheet1" !! j = Some col -> col <> []).
  { intros j col Hj. destruct j as [|[|j]]; [| |lia]; vm_compute; intros [= <-];
      discriminate. }
  split; [|split].
  - apply (proj1 (empty_column_reported trimSpaceASCII flagsAllJson secondBad
                    ["Sheet1"] "Sheet2" [] 0%nat
                    ltac:(vm_compute; reflexivity) Hearlier
                    ltac:(vm_compute; reflexivity) Hfirst0
                    ltac:(vm_compute; reflexivity))).
    reflexivity.
  - apply (proj1 (empty_column_reported trimSpaceASCII flagsJson ragged
                    [] "Sheet1" [] 2%nat
                    ltac:(vm_compute; reflexivity) ltac:(constructor)
                    ltac:(vm_compute; reflexivity) Hfirst2
                    ltac:(vm_compute; reflexivity))).
    reflexivity.
  - apply (proj2 (empty_column_reported trimSpaceASCII flagsAllTableJson secondBad
                    ["Sheet1"] "Sheet2" [] 0%nat
                    ltac:(vm_compute; reflexivity) Hearlier
                    ltac:(vm_compute; reflexivity) Hfirst0
                    ltac:(vm_compute; reflexivity))).
    discriminate.
Defined.

(** C7.  [xl -notitles -csv], without [-striptitles], on the sheet of
    columns Name, Alice, Bob and Age, 30, 25: the grid written has three
    rows of two fields, but the fields of row 0 are empty strings, not
    the cells at index 0 of the columns. *)
Theorem notitles_csv_loses_row_0 :
  stripColNames flagsNoTitlesCSV = false
  /\ transpose flagsNoTitlesCSV [["Name"; "Alice"; "Bob"]; ["Age"; "30"; "25"]]
     = Some [[EmptyString; EmptyString]; ["Alice"; "30"]; ["Bob"; "25"]]
  /\ main trimSpaceASCII flagsNoTitlesCSV people
     = mkOutcome 0 [InfoLine 1 2 6 3]
         [CsvRecords [[EmptyString; EmptyString]; ["Alice"; "30"]; ["Bob"; "25"]]] true.
Proof. repeat split; vm_compute; reflexivity. Qed.
